(** * Discord staff point manager: a shallow embedding of the ledger code

    The development follows the repository file by file:
    - [Js]: the few ECMAScript built-ins the sources call (string padding,
      [substring], [includes], [split], [join], [String(n)], [Math.ceil],
      [Date.prototype.toISOString]);
    - [Cooldown]: [src/utils/cooldown.js], with the timers it schedules;
    - [Config]: [config.js];
    - [Supabase]: the two tables and the three requests the service layer
      sends;
    - [Runtime]: the world an [async] function runs in (tables, request log,
      clock, cooldowns, log channel, what has been sent) and the state and
      exception monad of such functions;
    - [LedgerEngine]: the [modify_points] database function that the
      service layer calls;
    - [DatabaseService]: [src/services/database.js];
    - [HistoryGenerator]: [src/utils/historyGenerator.js];
    - [Logger]: [src/utils/logger.js];
    - [PointsCommand]: the [/points add] and [/points remove] handlers of
      [src/commands/points.js];
    - [PointsEntry]: [handleView] and the dispatching [execute] of the same
      file;
    - [HistoryCommand]: [src/commands/history.js];
    - [UpdateCommand]: the page buttons of [src/commands/update.js].

    Then come the vocabulary of the statements ([CooldownInv], [Ledger],
    [Scenario], [Admission], [Cast], [CooldownCare], [Flow], [Cast2]) and the
    properties.

    Numbers that the code handles are integers (point amounts, balances,
    epoch milliseconds); they are modelled in [Z].  Identities are strings,
    as the sources insist.  Strings are sequences of bytes, which is what the
    code units of the sources' ASCII texts are.  Console output is not
    modelled.  A run of a handler is sequential: the clock advances by the
    delays the code awaits, and the store answers at once.  *)

From Stdlib Require Import ZArith Lia List Ascii Sorting.Sorted.
From stdpp Require Import base gmap strings list fin_maps sorting pretty.

Local Open Scope Z_scope.

(* ===================================================================== *)
(** * ECMAScript built-ins used by the sources *)
(* ===================================================================== *)

Module Js.

(** A thrown [Error]: only its [message] is ever inspected. *)
Record Error := mkError { message : string }.

(** Completion of a call that may throw. *)
Inductive Completion (A : Type) :=
| Return (a : A)
| Throw (e : Error).
Arguments Return {A} a.
Arguments Throw {A} e.

(** [String(n)] for an integral number (below 1e21 in magnitude, where
    ECMAScript prints all the digits). *)
Definition String_ (n : Z) : string := pretty n.

(** Truthiness of a nullable string: [null] and [""] are falsy. *)
Definition truthy (s : option string) : bool :=
  match s with
  | None => false
  | Some EmptyString => false
  | Some _ => true
  end.

(** [s || null] for a nullable string. *)
Definition or_null (s : option string) : option string :=
  if truthy s then s else None.

Fixpoint spaces (n : nat) : string :=
  match n with
  | O => ""
  | S k => String " "%char (spaces k)
  end.

(** [s.padStart(n)] and [s.padEnd(n)] with the default filler. *)
Definition padStart (n : nat) (s : string) : string :=
  spaces (n - String.length s) +:+ s.

Definition padEnd (n : nat) (s : string) : string :=
  s +:+ spaces (n - String.length s).

(** [s.substring(0, n)]. *)
Fixpoint substring0 (n : nat) (s : string) : string :=
  match n, s with
  | S k, String c r => String c (substring0 k r)
  | _, _ => ""
  end.

Fixpoint startsWith (p s : string) : bool :=
  match p, s with
  | EmptyString, _ => true
  | String a p', String b s' => if decide (a = b) then startsWith p' s' else false
  | String _ _, EmptyString => false
  end.

(** [s.includes(p)]. *)
Fixpoint includes (p s : string) : bool :=
  startsWith p s ||
  match s with
  | EmptyString => false
  | String _ s' => includes p s'
  end.

(** [lines.join(sep)]. *)
Fixpoint join (sep : string) (l : list string) : string :=
  match l with
  | [] => ""
  | [x] => x
  | x :: r => x +:+ sep +:+ join sep r
  end.

(** [s.split(c)] for a one-character separator. *)
Fixpoint split (c : ascii) (s : string) : list string :=
  match s with
  | EmptyString => [""]
  | String a r =>
      if decide (a = c) then "" :: split c r
      else match split c r with
           | h :: t => String a h :: t
           | [] => [String a ""]
           end
  end.

(** [l[i]] for an array of strings that is long enough; the ISO strings
    split on "T" always have two parts. *)
Definition at_ (i : nat) (l : list string) : string := nth i l "".

(** [Math.ceil(a / b)] for integers [a] and positive [b]. *)
Definition ceil_div (a b : Z) : Z := - ((- a) / b).

(** [Math.floor(a / b)] for integers [a] and positive [b]. *)
Definition floor_div (a b : Z) : Z := a / b.

(** ** [Date.prototype.toISOString]

    A [Date] is its time value, in milliseconds since the epoch.  The
    civil date is obtained from the day number by the usual era
    computation on the proleptic Gregorian calendar.  *)

Definition msPerDay : Z := 86400000.

Definition civil_from_days (days : Z) : Z * Z * Z :=
  let z := days + 719468 in
  let era := z / 146097 in
  let doe := z - era * 146097 in
  let yoe := (doe - doe / 1460 + doe / 36524 - doe / 146096) / 365 in
  let doy := doe - (365 * yoe + yoe / 4 - yoe / 100) in
  let mp := (5 * doy + 2) / 153 in
  let d := doy - (153 * mp + 2) / 5 + 1 in
  let m := if mp <? 10 then mp + 3 else mp - 9 in
  let y := yoe + era * 400 + (if m <=? 2 then 1 else 0) in
  (y, m, d).

Fixpoint zeros (n : nat) : string :=
  match n with
  | O => ""
  | S k => String "0"%char (zeros k)
  end.

(** Decimal rendering of a non-negative field on at least [n] digits. *)
Definition digits (n : nat) (v : Z) : string :=
  let s := pretty (Z.abs v) in
  zeros (n - String.length s) +:+ s.

Definition isoYear (y : Z) : string :=
  if (0 <=? y) && (y <=? 9999) then digits 4 y
  else if y <? 0 then "-" +:+ digits 6 y
  else "+" +:+ digits 6 y.

Definition toISOString (t : Z) : string :=
  let days := t / msPerDay in
  let ms := t mod msPerDay in
  let '(y, m, d) := civil_from_days days in
  isoYear y +:+ "-" +:+ digits 2 m +:+ "-" +:+ digits 2 d +:+ "T" +:+
  digits 2 (ms / 3600000) +:+ ":" +:+ digits 2 (ms / 60000 mod 60) +:+ ":" +:+
  digits 2 (ms / 1000 mod 60) +:+ "." +:+ digits 3 (ms mod 1000) +:+ "Z".

End Js.

(* ===================================================================== *)
(** * src/utils/cooldown.js *)
(* ===================================================================== *)

Module Cooldown.

(** [Map<userId, Map<commandName, timestamp>>] *)
Abbreviation Cooldowns := (gmap string (gmap string Z)).

(** A pending [setTimeout] clean-up: the closure captures the pair. *)
Record Timer := mkTimer {
  fireAt : Z;
  timerUser : string;
  timerCommand : string
}.

(** The module-level state: the map and the timers it has scheduled. *)
Record State := mkState {
  cooldowns : Cooldowns;
  timers : list Timer
}.

Definition initial : State := {| cooldowns := ∅; timers := [] |}.

Definition COOLDOWN_DURATION : Z := 3000.

(** [cooldowns.get(userId)?.get(commandName)] *)
Definition expiration (cds : Cooldowns) (userId commandName : string) : option Z :=
  match cds !! userId with
  | None => None
  | Some userCooldowns => userCooldowns !! commandName
  end.

Definition checkCooldown (cds : Cooldowns) (now : Z) (userId commandName : string) : Z :=
  match cds !! userId with
  | None => 0
  | Some userCooldowns =>
      match userCooldowns !! commandName with
      | None => 0
      | Some expirationTime =>
          if now <? expirationTime then
            let remainingMs := expirationTime - now in
            Js.ceil_div remainingMs 1000
          else 0
      end
  end.

(** The arrow function handed to [setTimeout]. *)
Definition cleanup (userId commandName : string) (cds : Cooldowns) : Cooldowns :=
  match cds !! userId with
  | None => cds
  | Some userCooldowns =>
      let userCooldowns' := delete commandName userCooldowns in
      if decide (size userCooldowns' = 0%nat) then delete userId cds
      else <[userId := userCooldowns']> cds
  end.

Definition setCooldown (st : State) (now : Z) (userId commandName : string) : State :=
  let cds1 :=
    match cooldowns st !! userId with
    | None => <[userId := ∅]> (cooldowns st)
    | Some _ => cooldowns st
    end in
  let userCooldowns := default ∅ (cds1 !! userId) in
  let expirationTime := now + COOLDOWN_DURATION in
  {| cooldowns := <[userId := <[commandName := expirationTime]> userCooldowns]> cds1;
     timers := timers st ++ [mkTimer (now + COOLDOWN_DURATION) userId commandName] |}.

(** The event loop at time [now]: every timer that is due runs, in the
    order in which it was scheduled. *)
Fixpoint runTimers (now : Z) (ts : list Timer) (cds : Cooldowns) : Cooldowns * list Timer :=
  match ts with
  | [] => (cds, [])
  | t :: r =>
      if fireAt t <=? now then
        runTimers now r (cleanup (timerUser t) (timerCommand t) cds)
      else
        let '(cds', r') := runTimers now r cds in (cds', t :: r')
  end.

Definition tick (now : Z) (st : State) : State :=
  let '(cds, ts) := runTimers now (timers st) (cooldowns st) in
  {| cooldowns := cds; timers := ts |}.

Definition clearAllCooldowns (st : State) : State :=
  {| cooldowns := ∅; timers := timers st |}.

End Cooldown.


(* ===================================================================== *)
(** * config.js *)
(* ===================================================================== *)

Module Config.

Record Points := mkPoints {
  allowSelfAdd : bool;
  allowNegativeBalance : bool;
  minAmount : Z;
  maxAmount : Z
}.

Record Features := mkFeatures {
  dmHistoryOnly : bool;
  requireAuditLog : bool
}.

Record t := mkConfig {
  allowedGuildId : string;
  pointManagers : list string;
  superAdmins : list string;
  points : Points;
  features : Features
}.

(** The object literal exported by the file. *)
Definition config : t := {|
  allowedGuildId := "1434124929879773197";
  pointManagers :=
    ["937194748618354708"; "1232261529752178719"; "1450450293547339808"];
  superAdmins := ["937194748618354708"; "1306580945419370621"];
  points := {| allowSelfAdd := false;
               allowNegativeBalance := false;
               minAmount := 1;
               maxAmount := 10000 |};
  features := {| dmHistoryOnly := true; requireAuditLog := true |}
|}.

(** [array.includes(x)] on an array of strings. *)
Definition includes (l : list string) (x : string) : bool := bool_decide (x ∈ l).

(** The functions read the module-level [config]; it is a parameter here
    so that properties can be stated for every setting of its flags. *)
Section WithConfig.
Variable cfg : t.

Definition isAllowedServer (guildId : string) : bool :=
  bool_decide (guildId = allowedGuildId cfg).

Definition isSuperAdmin (userId : string) : bool :=
  includes (superAdmins cfg) userId.

Definition isPointManager (userId : string) : bool :=
  includes (pointManagers cfg) userId || isSuperAdmin userId.

Definition canManagePoints (userId targetUserId : string) : bool :=
  if isSuperAdmin userId then true
  else if isPointManager userId then
    if decide (userId = targetUserId) then allowSelfAdd (points cfg)
    else true
  else false.

Definition canViewHistory (userId targetUserId : string) : bool :=
  if decide (userId = targetUserId) then true
  else isPointManager userId || isSuperAdmin userId.
End WithConfig.

End Config.

(* ===================================================================== *)
(** * The store: tables and the queries the service layer sends *)
(* ===================================================================== *)

Module Supabase.

Inductive ActionType := ADD | REMOVE.

Definition ActionType_label (a : ActionType) : string :=
  match a with ADD => "ADD" | REMOVE => "REMOVE" end.

(** A row of [points_history].  [created_at] is the instant of the row as
    a time value (epoch milliseconds, UTC). *)
Record HistoryRecord := mkHistoryRecord {
  id : Z;
  target_user_id : string;
  action_by_user_id : string;
  action_type : ActionType;
  amount : Z;
  before_points : Z;
  after_points : Z;
  reason : option string;
  created_at : Z
}.

(** [staff_points] is keyed by its primary key [id]; [points_history] is
    kept in insertion order. *)
Record Database := mkDatabase {
  staff_points : gmap string Z;
  points_history : list HistoryRecord
}.

Definition empty : Database := {| staff_points := ∅; points_history := [] |}.

Record PostgrestError := mkPostgrestError {
  code : string;
  error_message : string
}.

(** The [{ data, error }] pair of a response: exactly one side is set. *)
Inductive Response (A : Type) :=
| Data (data : A)
| Err (error : PostgrestError).
Arguments Data {A} data.
Arguments Err {A} error.

(** The row shape of [.select('points')]. *)
Record PointsRow := mkPointsRow { row_points : Z }.

(** [.from('staff_points').select('points').eq('id', userId).single()]:
    [single()] answers with error code PGRST116 unless exactly one row
    matches; [id] being the primary key, at most one does. *)
Definition select_points_single (db : Database) (userId : string)
  : Response (option PointsRow) :=
  match staff_points db !! userId with
  | Some p => Data (Some {| row_points := p |})
  | None =>
      Err {| code := "PGRST116";
             error_message := "JSON object requested, multiple (or no) rows returned" |}
  end.

(** [ORDER BY created_at DESC]: the later instant comes first. *)
Definition newest_first (a b : HistoryRecord) : Prop :=
  created_at b <= created_at a.

#[export] Instance newest_first_dec a b : Decision (newest_first a b) :=
  decide (created_at b <= created_at a).

(** [.from('points_history').select('*').eq('target_user_id', userId)
     .order('created_at', { ascending: false })] *)
Definition select_history_desc (db : Database) (userId : string)
  : Response (option (list HistoryRecord)) :=
  Data (Some (merge_sort newest_first
                (filter (λ r, target_user_id r = userId) (points_history db)))).

(** The argument object of [supabase.rpc('modify_points', ...)]. *)
Record ModifyPointsArgs := mkModifyPointsArgs {
  p_target_user_id : string;
  p_action_by_user_id : string;
  p_action_type : ActionType;
  p_amount : Z;
  p_allow_negative : bool;
  p_reason : option string
}.

(** The JSON the function returns. *)
Record ModifyPointsData := mkModifyPointsData {
  data_before_points : Z;
  data_after_points : Z
}.

(** What a remote procedure is to the service layer: given its arguments
    and the store's clock it answers and leaves a store behind. *)
Definition Rpc : Type :=
  ModifyPointsArgs → Z → Database → Response ModifyPointsData * Database.

(** A request that reached the store. *)
Inductive Request :=
| ReqSelectPoints (userId : string)
| ReqSelectHistory (userId : string)
| ReqRpcModifyPoints (args : ModifyPointsArgs).

End Supabase.

(* ===================================================================== *)
(** * The world the bot runs in, and the monad of its asynchronous code *)
(* ===================================================================== *)

Module Runtime.
Import Supabase.

(** A discord.js [User]; in a template string it renders as a mention. *)
Record User := mkUser { user_id : string; username : string }.

Definition mention (u : User) : string := "<@" +:+ user_id u +:+ ">".

(** What [client.channels.fetch(id)] may do. *)
Inductive Channel := mkChannel (isTextBased : bool).

Inductive Fetched :=
| FetchRejects
| FetchResolves (channel : option Channel).

(** What the bot sends out. *)
Inductive Output :=
| Reply (content : string) (ephemeral : bool)
| DeferReply
| EditReply (content : string)
| ChannelSend (channelId : string) (content : string).

Record World := mkWorld {
  database : Database;
  requests : list Request;
  clock : Z;
  cooldown : Cooldown.State;
  LOG_CHANNEL_ID : option string;
  channels : string → Fetched;
  outputs : list Output
}.

Definition with_database (db : Database) (w : World) : World :=
  {| database := db; requests := requests w; clock := clock w;
     cooldown := cooldown w; LOG_CHANNEL_ID := LOG_CHANNEL_ID w;
     channels := channels w; outputs := outputs w |}.

Definition with_request (r : Request) (w : World) : World :=
  {| database := database w; requests := requests w ++ [r]; clock := clock w;
     cooldown := cooldown w; LOG_CHANNEL_ID := LOG_CHANNEL_ID w;
     channels := channels w; outputs := outputs w |}.

Definition with_clock (t : Z) (w : World) : World :=
  {| database := database w; requests := requests w; clock := t;
     cooldown := cooldown w; LOG_CHANNEL_ID := LOG_CHANNEL_ID w;
     channels := channels w; outputs := outputs w |}.

Definition with_cooldown (c : Cooldown.State) (w : World) : World :=
  {| database := database w; requests := requests w; clock := clock w;
     cooldown := c; LOG_CHANNEL_ID := LOG_CHANNEL_ID w;
     channels := channels w; outputs := outputs w |}.

Definition with_output (o : Output) (w : World) : World :=
  {| database := database w; requests := requests w; clock := clock w;
     cooldown := cooldown w; LOG_CHANNEL_ID := LOG_CHANNEL_ID w;
     channels := channels w; outputs := outputs w ++ [o] |}.

(** State and exceptions: an [async] function runs on a world and either
    returns or throws, leaving a world behind. *)
Definition M (A : Type) : Type := World → Js.Completion A * World.

Definition ret {A} (a : A) : M A := λ w, (Js.Return a, w).

Definition throw {A} (e : Js.Error) : M A := λ w, (Js.Throw e, w).

Definition bind {A B} (m : M A) (k : A → M B) : M B :=
  λ w, match m w with
       | (Js.Return a, w') => k a w'
       | (Js.Throw e, w') => (Js.Throw e, w')
       end.

(** [try { m } catch (e) { h e }] *)
Definition try_catch {A} (m : M A) (h : Js.Error → M A) : M A :=
  λ w, match m w with
       | (Js.Return a, w') => (Js.Return a, w')
       | (Js.Throw e, w') => h e w'
       end.

Declare Scope async_scope.
Delimit Scope async_scope with async.
Notation "x <- m ;; k" := (bind m (λ x, k))
  (at level 100, m at next level, right associativity) : async_scope.
Notation "m ;;; k" := (bind m (λ _, k))
  (at level 100, right associativity) : async_scope.

(** [Date.now()] *)
Definition Date_now : M Z := λ w, (Js.Return (clock w), w).

(** [await new Promise(resolve => setTimeout(resolve, ms))]: time passes
    and the timers that fall due meanwhile run. *)
Definition sleep (ms : Z) : M unit :=
  λ w, let t := clock w + ms in
       (Js.Return tt, with_cooldown (Cooldown.tick t (cooldown w)) (with_clock t w)).

Definition emit (o : Output) : M unit := λ w, (Js.Return tt, with_output o w).

(** The three requests, each recorded as a store access. *)
Definition query_points (userId : string) : M (Response (option PointsRow)) :=
  λ w, (Js.Return (select_points_single (database w) userId),
        with_request (ReqSelectPoints userId) w).

Definition query_history (userId : string) : M (Response (option (list HistoryRecord))) :=
  λ w, (Js.Return (select_history_desc (database w) userId),
        with_request (ReqSelectHistory userId) w).

Definition call_rpc (rpc : Rpc) (args : ModifyPointsArgs) : M (Response ModifyPointsData) :=
  λ w, let '(resp, db) := rpc args (clock w) (database w) in
       (Js.Return resp, with_database db (with_request (ReqRpcModifyPoints args) w)).

(** A thrown response error keeps its [message]. *)
Definition thrown (e : PostgrestError) : Js.Error := Js.mkError (error_message e).

(** [s || fallback] on strings. *)
Definition or_else (s fallback : string) : string :=
  match s with EmptyString => fallback | _ => s end.

End Runtime.

(* ===================================================================== *)
(** * The ledger engine behind the [modify_points] remote procedure *)
(* ===================================================================== *)

Module LedgerEngine.
Import Supabase.

(** Modelled from the spec: the failure kinds of the engine (section 7).
    They travel as error messages; the callers recognise an insufficient
    balance by the words "Insufficient points" in the message. *)
Inductive FailureKind := InvalidAmount | InsufficientBalance.

(** Modelled from the spec: the message of each kind; only the words the
    callers look for are known. *)
Definition failure_message (k : FailureKind) : string :=
  match k with
  | InvalidAmount => "Amount must be positive"
  | InsufficientBalance => "Insufficient points"
  end.

(** Modelled from the spec: a failure raised inside the function reaches
    the caller as the [error] of the response. *)
Definition failure (k : FailureKind) : PostgrestError :=
  {| code := "P0001"; error_message := failure_message k |}.

(** Modelled from the spec: the PostgreSQL function [modify_points], which
    is not among the sources.  Section 4.1: the amount must be strictly
    positive; the balance of the target is read (0 if absent); the
    candidate balance is [before + amount] for ADD and [before - amount]
    for REMOVE; a REMOVE that would go below zero while negatives are not
    allowed fails before any write; otherwise the balance is written and
    one history record is appended, as a single commit. *)
Definition modify_points : Rpc :=
  λ args now db,
    if p_amount args <=? 0 then (Err (failure InvalidAmount), db)
    else
      let before := default 0 (staff_points db !! p_target_user_id args) in
      let after :=
        match p_action_type args with
        | ADD => before + p_amount args
        | REMOVE => before - p_amount args
        end in
      let refused :=
        match p_action_type args with
        | ADD => false
        | REMOVE => negb (p_allow_negative args) && (after <? 0)
        end in
      if refused then (Err (failure InsufficientBalance), db)
      else
        (Data {| data_before_points := before; data_after_points := after |},
         {| staff_points := <[p_target_user_id args := after]> (staff_points db);
            points_history :=
              points_history db ++
              [{| id := Z.of_nat (length (points_history db)) + 1;
                  target_user_id := p_target_user_id args;
                  action_by_user_id := p_action_by_user_id args;
                  action_type := p_action_type args;
                  amount := p_amount args;
                  before_points := before;
                  after_points := after;
                  reason := p_reason args;
                  created_at := now |}] |}).

End LedgerEngine.

(* ===================================================================== *)
(** * src/services/database.js *)
(* ===================================================================== *)

Module DatabaseService.
Import Supabase Runtime.
Local Open Scope async_scope.

(** The [{ before, after }] object both mutations return. *)
Record PointsChange := mkPointsChange { before : Z; after : Z }.

(** The two failures the callers tell apart, as the code raises them. *)
Definition isInvalidAmount (e : Js.Error) : Prop :=
  Js.message e = "Amount must be positive".

Definition isInsufficientBalance (e : Js.Error) : Prop :=
  Js.includes "Insufficient points" (Js.message e) = true.

Definition getUserPoints (userId : string) : M Z :=
  try_catch
    (resp <- query_points userId ;;
     match resp with
     | Err error =>
         if decide (code error = "PGRST116") then ret 0
         else throw (thrown error)
     | Data data =>
         (* data?.points || 0 *)
         ret (match data with
              | Some row => if row_points row =? 0 then 0 else row_points row
              | None => 0
              end)
     end)
    (λ _, throw (Js.mkError "Failed to fetch user points")).

Definition getPointsHistory (userId : string) : M (list HistoryRecord) :=
  try_catch
    (resp <- query_history userId ;;
     match resp with
     | Err error => throw (thrown error)
     | Data data => ret (default [] data)
     end)
    (λ _, throw (Js.mkError "Failed to fetch points history")).

Section WithRpc.
(** The remote procedure lives in the database; the service layer only
    calls it. *)
Variable rpc : Rpc.

Definition addPoints (targetUserId actionByUserId : string) (amount : Z)
    (reason : option string) : M PointsChange :=
  if amount <=? 0 then throw (Js.mkError "Amount must be positive")
  else
    try_catch
      (resp <- call_rpc rpc
                 {| p_target_user_id := targetUserId;
                    p_action_by_user_id := actionByUserId;
                    p_action_type := ADD;
                    p_amount := amount;
                    p_allow_negative := false;
                    p_reason := reason |} ;;
       match resp with
       | Err error =>
           throw (Js.mkError (or_else (error_message error) "Failed to add points"))
       | Data data =>
           ret {| before := data_before_points data;
                  after := data_after_points data |}
       end)
      (λ error, throw error).

Definition removePoints (targetUserId actionByUserId : string) (amount : Z)
    (allowNegative : bool) (reason : option string) : M PointsChange :=
  if amount <=? 0 then throw (Js.mkError "Amount must be positive")
  else
    try_catch
      (resp <- call_rpc rpc
                 {| p_target_user_id := targetUserId;
                    p_action_by_user_id := actionByUserId;
                    p_action_type := REMOVE;
                    p_amount := amount;
                    p_allow_negative := allowNegative;
                    p_reason := reason |} ;;
       match resp with
       | Err error =>
           if negb (bool_decide (error_message error = "")) &&
              Js.includes "Insufficient points" (error_message error)
           then throw (Js.mkError (error_message error))
           else throw (Js.mkError (or_else (error_message error) "Failed to remove points"))
       | Data data =>
           ret {| before := data_before_points data;
                  after := data_after_points data |}
       end)
      (λ error, throw error).
End WithRpc.

End DatabaseService.

(* ===================================================================== *)
(** * src/utils/historyGenerator.js *)
(* ===================================================================== *)

Module HistoryGenerator.
Import Supabase Runtime.

Definition LF : string := String (ascii_of_nat 10) "".

Definition rule : string :=
  "===================================================================".

Definition thin_rule : string :=
  "-------------------------------------------------------------------".

(** The [GENERATED] line; [now] is the value of [new Date()]. *)
Definition generatedLine (now : Z) : string :=
  let generatedDate := Js.at_ 0 (Js.split "T" (Js.toISOString now)) in
  let generatedTime := Js.substring0 5 (Js.at_ 1 (Js.split "T" (Js.toISOString now))) in
  "GENERATED: " +:+ generatedDate +:+ " " +:+ generatedTime +:+ " UTC".

Definition header (now : Z) (user : User) : list string :=
  [ rule;
    "                  OFFICIAL POINTS STATEMENT";
    rule;
    "USER     : " +:+ username user +:+ " (ID: " +:+ user_id user +:+ ")";
    generatedLine now;
    rule;
    "DATE         TIME    ADMIN           ACTION      AMT    BALANCE";
    thin_rule ].

(** What one turn of the loop pushes. *)
Definition recordLines (record : HistoryRecord) : list string :=
  let date := created_at record in
  let dateStr := Js.at_ 0 (Js.split "T" (Js.toISOString date)) in
  let timeStr := Js.substring0 5 (Js.at_ 1 (Js.split "T" (Js.toISOString date))) in
  let action :=
    match action_type record with ADD => "[ADD]   " | REMOVE => "[REMOVE]" end in
  let amountStr :=
    match action_type record with
    | ADD => Js.padStart 7 ("+" +:+ Js.String_ (amount record))
    | REMOVE => Js.padStart 7 ("-" +:+ Js.String_ (amount record))
    end in
  let balanceStr := Js.padStart 8 (Js.String_ (after_points record)) in
  let adminId := action_by_user_id record in
  let adminName := "User_" +:+ Js.substring0 8 adminId in
  [ dateStr +:+ "   " +:+ timeStr +:+ "   " +:+ Js.padEnd 15 adminName +:+ " " +:+
    action +:+ "   " +:+ amountStr +:+ "   " +:+ balanceStr ]
  ++ (if Js.truthy (reason record)
      then ["                     Memo: " +:+ default "" (reason record)]
      else [])
  ++ [ "" ].

Definition closingBalance (history : list HistoryRecord) : Z :=
  match history with
  | record :: _ => after_points record
  | [] => 0
  end.

Definition closingLine (history : list HistoryRecord) : string :=
  "                     CLOSING BALANCE             " +:+
  Js.padStart 8 (Js.String_ (closingBalance history)).

Definition footer (history : list HistoryRecord) : list string :=
  [ thin_rule;
    closingLine history;
    rule;
    "* This is an automated record." ].

(** The array [lines] when the function returns: the loop appends the
    lines of each record in turn. *)
Definition statementLines (now : Z) (user : User) (history : list HistoryRecord)
  : list string :=
  fold_left (λ lines record, lines ++ recordLines record) history (header now user)
  ++ footer history.

Definition generateHistoryFile (now : Z) (user : User) (history : list HistoryRecord)
  : string :=
  Js.join LF (statementLines now user history).

End HistoryGenerator.

(* ===================================================================== *)
(** * src/utils/logger.js *)
(* ===================================================================== *)

Module Logger.
Import Supabase Runtime.
Local Open Scope async_scope.

(** The object the handlers pass as [data]. *)
Record AuditData := mkAuditData {
  type : ActionType;
  targetUser : User;
  amount : Z;
  executor : User
}.

Definition auditMessage (data : AuditData) (unixTimestamp : Z) : string :=
  let emoji :=
    match type data with
    | ADD => "<:up:1450773420362174605>"
    | REMOVE => "<:down:1450773447813632023>"
    end in
  let sign := match type data with ADD => "+" | REMOVE => "-" end in
  let action := match type data with ADD => "ADDED" | REMOVE => "REMOVED" end in
  Js.join HistoryGenerator.LF
    [ emoji +:+ " **POINTS " +:+ action +:+ "**";
      "";
      "**User:** " +:+ mention (targetUser data);
      "**Amount:** " +:+ sign +:+ Js.String_ (amount data);
      "**By:** <:admin:1450781535002427476> " +:+ mention (executor data);
      "**Time:** <a:time:1450781529700565073> <t:" +:+ Js.String_ unixTimestamp +:+ ":F>";
      "";
      "───────────────────────────────" ].

Definition fetch_channel (logChannelId : string) : M (option Channel) :=
  λ w, match channels w logChannelId with
       | FetchRejects => (Js.Throw (Js.mkError "Unknown Channel"), w)
       | FetchResolves channel => (Js.Return channel, w)
       end.

Definition sendAuditLog (data : AuditData) : M unit :=
  λ w,
    if negb (Js.truthy (LOG_CHANNEL_ID w)) then ret tt w
    else
      let logChannelId := default "" (LOG_CHANNEL_ID w) in
      try_catch
        (channel <- fetch_channel logChannelId ;;
         match channel with
         | None => ret tt
         | Some (mkChannel false) => ret tt
         | Some (mkChannel true) =>
             now <- Date_now ;;
             let unixTimestamp := Js.floor_div now 1000 in
             emit (ChannelSend logChannelId (auditMessage data unixTimestamp))
         end)
        (λ _, ret tt) w.

End Logger.

(* ===================================================================== *)
(** * src/commands/points.js: the add and remove handlers *)
(* ===================================================================== *)

Module PointsCommand.
Import Supabase Runtime DatabaseService Logger.
Local Open Scope async_scope.

(** What a handler reads from its [interaction]. *)
Record Interaction := mkInteraction {
  user : User;
  option_user : User;
  option_amount : Z;
  option_reason : option string
}.

Definition check_cooldown (userId commandName : string) : M Z :=
  λ w, (Js.Return
          (Cooldown.checkCooldown (Cooldown.cooldowns (cooldown w)) (clock w)
             userId commandName), w).

Definition set_cooldown (userId commandName : string) : M unit :=
  λ w, (Js.Return tt,
        with_cooldown (Cooldown.setCooldown (cooldown w) (clock w) userId commandName) w).

Definition slowDown (cooldownRemaining : Z) : string :=
  "<:time:1450781529700565073> **Slow down!** Please wait " +:+
  Js.String_ cooldownRemaining +:+ " second" +:+
  (if 1 <? cooldownRemaining then "s" else "") +:+
  " before using this command again.".

Definition reasonLine (reason : option string) : list string :=
  if Js.truthy reason then ["**Reason:** " +:+ default "" reason] else [].

Section Handlers.
Variable cfg : Config.t.
Variable rpc : Rpc.

Definition handleAdd (interaction : Interaction) : M unit :=
  let executor := user interaction in
  let targetUser := option_user interaction in
  let amount := option_amount interaction in
  let executorId := user_id executor in
  let targetUserId := user_id targetUser in
  if negb (Config.canManagePoints cfg executorId targetUserId) then
    emit (Reply "<:error:1450781522545086599> **You do not have permission to add points.**" true)
  else if bool_decide (executorId = targetUserId) &&
          negb (Config.allowSelfAdd (Config.points cfg)) then
    emit (Reply "<:error:1450781522545086599> **You cannot add points to yourself.**" true)
  else
    cooldownRemaining <- check_cooldown executorId "points_add" ;;
    if 0 <? cooldownRemaining then
      emit (Reply (slowDown cooldownRemaining) true)
    else
      emit DeferReply ;;;
      emit (EditReply
              ("<a:time:1450781529700565073> **Processing transaction...**" +:+
               HistoryGenerator.LF +:+ "> Verifying permissions & updating balance")) ;;;
      try_catch
        (let reason := Js.or_null (option_reason interaction) in
         sleep 1200 ;;;
         change <- addPoints rpc targetUserId executorId amount reason ;;
         set_cooldown executorId "points_add" ;;;
         let responseLines :=
           [ "<:up:1450773420362174605> <:success:1450781525812449280> **POINTS ADDED**";
             "";
             "**User:** " +:+ mention targetUser;
             "**Before:** " +:+ Js.String_ (before change);
             "**Added:** +" +:+ Js.String_ amount;
             "**After:** " +:+ Js.String_ (after change) ]
           ++ reasonLine reason
           ++ [ ""; "────────────────────────────" ] in
         emit (EditReply (Js.join HistoryGenerator.LF responseLines)) ;;;
         sendAuditLog {| type := ADD; targetUser := targetUser;
                         amount := amount; executor := executor |})
        (λ error, throw error).

Definition handleRemove (interaction : Interaction) : M unit :=
  let executor := user interaction in
  let targetUser := option_user interaction in
  let amount := option_amount interaction in
  let executorId := user_id executor in
  let targetUserId := user_id targetUser in
  if negb (Config.canManagePoints cfg executorId targetUserId) then
    emit (Reply "<:error:1450781522545086599> **You do not have permission to remove points.**" true)
  else if bool_decide (executorId = targetUserId) &&
          negb (Config.allowSelfAdd (Config.points cfg)) then
    emit (Reply "<:error:1450781522545086599> **You cannot remove points from yourself.**" true)
  else
    cooldownRemaining <- check_cooldown executorId "points_remove" ;;
    if 0 <? cooldownRemaining then
      emit (Reply (slowDown cooldownRemaining) true)
    else
      emit DeferReply ;;;
      emit (EditReply
              ("<:admin:1450781535002427476> **Authorizing deduction...**" +:+
               HistoryGenerator.LF +:+ "> Running balance validation")) ;;;
      try_catch
        (let reason := Js.or_null (option_reason interaction) in
         sleep 1200 ;;;
         change <- removePoints rpc targetUserId executorId amount
                     (Config.allowNegativeBalance (Config.points cfg)) reason ;;
         set_cooldown executorId "points_remove" ;;;
         let responseLines :=
           [ "<:down:1450773447813632023> <:success:1450781525812449280> **POINTS DEDUCTED**";
             "";
             "**User:** " +:+ mention targetUser;
             "**Before:** " +:+ Js.String_ (before change);
             "**Removed:** -" +:+ Js.String_ amount;
             "**After:** " +:+ Js.String_ (after change) ]
           ++ reasonLine reason
           ++ [ ""; "────────────────────────────" ] in
         emit (EditReply (Js.join HistoryGenerator.LF responseLines)) ;;;
         sendAuditLog {| type := REMOVE; targetUser := targetUser;
                         amount := amount; executor := executor |})
        (λ error,
           if negb (bool_decide (Js.message error = "")) &&
              Js.includes "Insufficient points" (Js.message error)
           then throw (Js.mkError
                         ("Cannot remove " +:+ Js.String_ amount +:+
                          " points. User has insufficient balance."))
           else throw error).
End Handlers.

End PointsCommand.

(* ===================================================================== *)
(** * Reachable cooldown states *)
(* ===================================================================== *)

Module CooldownInv.
Import Cooldown.

(** The states the module goes through: it starts empty; [setCooldown]
    stamps the current time; time only moves forward, and when it does
    the due timers may run at once or late; [clearAllCooldowns] may be
    called at any time. *)
Inductive Reachable : Z → State → Prop :=
| Reachable_initial now :
    Reachable now initial
| Reachable_setCooldown now st userId commandName :
    Reachable now st → Reachable now (setCooldown st now userId commandName)
| Reachable_wait now now' st :
    Reachable now st → now <= now' → Reachable now' st
| Reachable_tick now st :
    Reachable now st → Reachable now (tick now st)
| Reachable_clear now st :
    Reachable now st → Reachable now (clearAllCooldowns st).

(** No entry expires later than one full duration from now. *)
Definition bounded (now : Z) (cds : Cooldowns) : Prop :=
  ∀ userId commandName e,
    expiration cds userId commandName = Some e → e <= now + COOLDOWN_DURATION.

End CooldownInv.

(* ===================================================================== *)
(** * src/commands/points.js: the view handler and the dispatcher *)
(* ===================================================================== *)

Module PointsEntry.
Import Supabase Runtime DatabaseService Logger PointsCommand.
Local Open Scope async_scope.

(** What [handleView] reads from its [interaction]; the [user] option may
    be absent. *)
Record ViewInteraction := mkViewInteraction {
  view_user : User;
  view_option_user : option User
}.

Definition handleView (interaction : ViewInteraction) : M unit :=
  (* getUser('user') || interaction.user *)
  let targetUser := default (view_user interaction) (view_option_user interaction) in
  emit DeferReply ;;;
  emit (EditReply
          ("<a:points:1450781567663210506> **Fetching staff profile...**" +:+
           HistoryGenerator.LF +:+ "> Syncing records & calculating balance")) ;;;
  points <- getUserPoints (user_id targetUser) ;;
  sleep 1000 ;;;
  clock_ms <- Date_now ;;
  let now := Js.floor_div clock_ms 1000 in
  let response :=
    Js.join HistoryGenerator.LF
      [ "╔══════════════╗";
        "║  <:user:1450781532473000006> **STAFF PROFILE**   ║";
        "╚══════════════╝";
        "";
        "<:user:1450781532473000006> **User:** " +:+ mention targetUser;
        "<a:points:1450781567663210506> **Points:** **" +:+ Js.String_ points +:+ "**";
        "";
        "-# <a:time:1450781529700565073> **Retrieved:** <t:" +:+ Js.String_ now +:+ ":F>";
        "────────────────────────────" ] in
  emit (EditReply response).

(** The subcommand of an interaction, with the options that come with it. *)
Inductive Subcommand :=
| View (interaction : ViewInteraction)
| Add (interaction : Interaction)
| Remove (interaction : Interaction)
| Other (name : string).

Definition is_acknowledgement (o : Output) : bool :=
  match o with
  | Reply _ _ => true
  | DeferReply => true
  | _ => false
  end.

(** [interaction.deferred || interaction.replied], for the interaction that
    started in world [w0]. *)
Definition acknowledged (w0 w : World) : bool :=
  existsb is_acknowledgement (drop (length (outputs w0)) (outputs w)).

Section Dispatch.
Variable cfg : Config.t.
Variable rpc : Rpc.

Definition execute (subcommand : Subcommand) : M unit :=
  λ w0,
    try_catch
      (match subcommand with
       | View interaction => handleView interaction
       | Add interaction => handleAdd cfg rpc interaction
       | Remove interaction => handleRemove cfg rpc interaction
       | Other _ => ret tt
       end)
      (λ error w,
         let errorMessage := or_else (Js.message error) "An unexpected error occurred." in
         let content := "<:error:1450781522545086599> **Error:** " +:+ errorMessage in
         if acknowledged w0 w then emit (EditReply content) w
         else emit (Reply content true) w)
      w0.
End Dispatch.

End PointsEntry.

(* ===================================================================== *)
(** * src/commands/history.js *)
(* ===================================================================== *)

Module HistoryCommand.
Import Supabase Runtime DatabaseService.

Record Interaction := mkInteraction {
  user : User;
  option_user : option User
}.

(** The file attached to the direct message. *)
Record Attachment := mkAttachment {
  name : string;
  content : string
}.

(** What the command sends, in order.  The deferral carries its
    [ephemeral] flag, and a direct message its recipient. *)
Inductive Sent :=
| SentReply (text : string) (ephemeral : bool)
| SentDeferReply (ephemeral : bool)
| SentEditReply (text : string)
| SentDirect (recipient : User) (text : string) (file : Attachment).

Definition denied : string :=
  "<:error:1450781522545086599> **You do not have permission to view this user's history.**".

Definition accessing : string :=
  "<:history:1450781562059751534> **Accessing archives...**".

Definition nothing_found : string :=
  "<:history:1450781562059751534> **No points history found for this user.**".

Definition compiling : string :=
  "<:history:1450781562059751534> **Compiling statement...**".

Definition statement_sent : string :=
  Js.join HistoryGenerator.LF
    [ "### 📨 Statement Sent";
      "> Your detailed points statement has been sent to your DMs." ].

Definition delivery_failed : string :=
  Js.join HistoryGenerator.LF
    [ "### ❌ Delivery Failed";
      "> **Error:** Cannot send Direct Message";
      "Please enable DMs and try again." ].

Definition failure_text (error : Js.Error) : string :=
  let errorMsg := or_else (Js.message error) "Failed to generate history file" in
  "<:error:1450781522545086599> **Error:** " +:+ errorMsg +:+
  HistoryGenerator.LF +:+ "> Please try again or contact an administrator.".

Section Execute.
Variable cfg : Config.t.
(** Whether [executor.send] resolves: the executor accepts direct
    messages. *)
Variable dmOpen : bool.

(** The command catches everything it can raise, so a run is its world and
    what it sent.  Only the table read and the awaited delay act on the
    world; the messages are listed apart. *)
Definition execute (interaction : Interaction) (w : World) : World * list Sent :=
  let executor := user interaction in
  let targetUser := default executor (option_user interaction) in
  if negb (Config.canViewHistory cfg (user_id executor) (user_id targetUser)) then
    (w, [SentReply denied true])
  else
    let opening := [SentDeferReply true; SentEditReply accessing] in
    match getPointsHistory (user_id targetUser) w with
    | (Js.Throw error, w1) =>
        (w1, opening ++ [SentEditReply (failure_text error)])
    | (Js.Return history, w1) =>
        match history with
        | [] => (w1, opening ++ [SentEditReply nothing_found])
        | _ :: _ =>
            let w2 := (sleep 800 w1).2 in
            let fileContent :=
              HistoryGenerator.generateHistoryFile (clock w2) targetUser history in
            let dateStr := Js.at_ 0 (Js.split "T" (Js.toISOString (clock w2))) in
            let attachment :=
              {| name := "Statement_" +:+ username targetUser +:+ "_" +:+ dateStr +:+ ".txt";
                 content := fileContent |} in
            if dmOpen then
              (w2, opening ++
                   [ SentEditReply compiling;
                     SentDirect executor
                       ("📜 **Official Points Statement** for **" +:+
                        username targetUser +:+ "**")
                       attachment;
                     SentEditReply statement_sent ])
            else
              (w2, opening ++ [SentEditReply compiling; SentEditReply delivery_failed])
        end
    end.
End Execute.

End HistoryCommand.

(* ===================================================================== *)
(** * src/commands/update.js: the page buttons *)
(* ===================================================================== *)

Module UpdateCommand.

Inductive ButtonStyle := Primary | Secondary.

Record Button := mkButton {
  customId : string;
  emoji : option string;
  label : option string;
  style : ButtonStyle;
  disabled : bool
}.

Definition generateButtons (currentPage totalPages : Z) : list Button :=
  [ {| customId := "update_first"; emoji := Some "⏮️"; label := None;
       style := Secondary; disabled := bool_decide (currentPage = 1) |};
    {| customId := "update_prev"; emoji := Some "◀️"; label := None;
       style := Primary; disabled := bool_decide (currentPage = 1) |};
    {| customId := "update_page"; emoji := None;
       label := Some (Js.String_ currentPage +:+ " / " +:+ Js.String_ totalPages);
       style := Secondary; disabled := true |};
    {| customId := "update_next"; emoji := Some "▶️"; label := None;
       style := Primary; disabled := bool_decide (currentPage = totalPages) |};
    {| customId := "update_last"; emoji := Some "⏭️"; label := None;
       style := Secondary; disabled := bool_decide (currentPage = totalPages) |} ].

(** The page after a click, as the collector computes it. *)
Definition collect (clicked : string) (currentPage totalCount : Z) : Z :=
  if bool_decide (clicked = "update_first") then 1
  else if bool_decide (clicked = "update_prev") then Z.max 1 (currentPage - 1)
  else if bool_decide (clicked = "update_next") then Z.min totalCount (currentPage + 1)
  else if bool_decide (clicked = "update_last") then totalCount
  else currentPage.

End UpdateCommand.

(* ===================================================================== *)
(** * Vocabulary of the statements *)
(* ===================================================================== *)

Module Ledger.
Import Supabase Runtime DatabaseService.

(** The balance of a user: the stored points, 0 without a record. *)
Definition balance (db : Database) (userId : string) : Z :=
  default 0 (staff_points db !! userId).

(** The records of a user, in the order of the table. *)
Definition records_of (db : Database) (userId : string) : list HistoryRecord :=
  filter (λ r, target_user_id r = userId) (points_history db).

Definition removeArgs (targetUserId actionByUserId : string) (amount : Z)
    (allowNegative : bool) (reason : option string) : ModifyPointsArgs :=
  {| p_target_user_id := targetUserId;
     p_action_by_user_id := actionByUserId;
     p_action_type := REMOVE;
     p_amount := amount;
     p_allow_negative := allowNegative;
     p_reason := reason |}.

Definition addArgs (targetUserId actionByUserId : string) (amount : Z)
    (reason : option string) : ModifyPointsArgs :=
  {| p_target_user_id := targetUserId;
     p_action_by_user_id := actionByUserId;
     p_action_type := ADD;
     p_amount := amount;
     p_allow_negative := false;
     p_reason := reason |}.

(** The non-negative balance policy at one call of [removePoints] whose
    candidate balance is below zero: refused when negatives are not
    allowed, with an insufficient-balance error and the tables as they
    were; carried out when they are allowed, returning the negative
    balance, writing it and appending one record. *)
Definition negative_balance_policy (w : World)
    (targetUserId actionByUserId : string) (amount : Z) (reason : option string)
  : Prop :=
  (∃ e w',
      removePoints LedgerEngine.modify_points
        targetUserId actionByUserId amount false reason w = (Js.Throw e, w')
      ∧ isInsufficientBalance e
      ∧ database w' = database w)
  ∧ (∃ w',
      removePoints LedgerEngine.modify_points
        targetUserId actionByUserId amount true reason w =
        (Js.Return {| before := balance (database w) targetUserId;
                      after := balance (database w) targetUserId - amount |}, w')
      ∧ balance (database w) targetUserId - amount < 0
      ∧ balance (database w') targetUserId = balance (database w) targetUserId - amount
      ∧ length (points_history (database w')) =
        S (length (points_history (database w)))).

End Ledger.

Module Scenario.
Import Supabase Runtime.

(** A world with the given tables, nothing sent yet and no log channel. *)
Definition world_of (db : Database) : World :=
  {| database := db; requests := []; clock := 0;
     cooldown := Cooldown.initial; LOG_CHANNEL_ID := None;
     channels := λ _, FetchRejects; outputs := [] |}.

(** Balance 10 for one user, as in the policy example. *)
Definition ten_points : Database :=
  {| staff_points := {[ "1232261529752178719" := 10 ]}; points_history := [] |}.

(** A balance that an earlier removal drove below zero. *)
Definition overdrawn : Database :=
  {| staff_points := {[ "1232261529752178719" := -5 ]}; points_history := [] |}.

(** ADD 50 then REMOVE 20 for one user, and one record of another. *)
Definition two_records : Database :=
  {| staff_points := {[ "1232261529752178719" := 30; "1450450293547339808" := 7 ]};
     points_history :=
       [ {| id := 1; target_user_id := "1232261529752178719";
            action_by_user_id := "937194748618354708"; action_type := ADD;
            amount := 50; before_points := 0; after_points := 50;
            reason := Some "bonus"; created_at := 1700000000000 |};
         {| id := 2; target_user_id := "1450450293547339808";
            action_by_user_id := "937194748618354708"; action_type := ADD;
            amount := 7; before_points := 0; after_points := 7;
            reason := None; created_at := 1700000100000 |};
         {| id := 3; target_user_id := "1232261529752178719";
            action_by_user_id := "937194748618354708"; action_type := REMOVE;
            amount := 20; before_points := 50; after_points := 30;
            reason := None; created_at := 1700000200000 |} ] |}.

Definition one_cooldown : Cooldown.State :=
  Cooldown.setCooldown Cooldown.initial 1000 "937194748618354708" "points_add".

(** The end-to-end scenario: a fresh user gets 50 points with a reason,
    loses 20 a second later, and is then looked up. *)
Definition add_remove_then_read : M (Z * list HistoryRecord) :=
  bind (DatabaseService.addPoints LedgerEngine.modify_points
          "1232261529752178719" "937194748618354708" 50 (Some "bonus"))
    (λ _,
       bind (sleep 1000)
         (λ _,
            bind (DatabaseService.removePoints LedgerEngine.modify_points
                    "1232261529752178719" "937194748618354708" 20 false None)
              (λ _,
                 bind (DatabaseService.getUserPoints "1232261529752178719")
                   (λ points,
                      bind (DatabaseService.getPointsHistory "1232261529752178719")
                        (λ history, ret (points, history)))))).

End Scenario.

Module Admission.
Import Supabase Runtime Logger PointsCommand.

(** The four replies with which the handlers turn a call away before
    doing anything else. *)
Definition add_denied : string :=
  "<:error:1450781522545086599> **You do not have permission to add points.**".

Definition add_self : string :=
  "<:error:1450781522545086599> **You cannot add points to yourself.**".

Definition remove_denied : string :=
  "<:error:1450781522545086599> **You do not have permission to remove points.**".

Definition remove_self : string :=
  "<:error:1450781522545086599> **You cannot remove points from yourself.**".

(** A run that returned having only sent the ephemeral reply [m]: the
    tables, the requests, the cooldowns and the clock are those of [w]. *)
Definition turned_away (m : string) (w : World)
    (run : Js.Completion unit * World) : Prop :=
  run = (Js.Return tt, with_output (Reply m true) w).

(** The handler rejects the action at its permission and self-action
    checks. *)
Definition add_rejected (cfg : Config.t) (rpc : Rpc) (i : Interaction) (w : World)
  : Prop :=
  turned_away add_denied w (handleAdd cfg rpc i w)
  ∨ turned_away add_self w (handleAdd cfg rpc i w).

Definition remove_rejected (cfg : Config.t) (rpc : Rpc) (i : Interaction) (w : World)
  : Prop :=
  turned_away remove_denied w (handleRemove cfg rpc i w)
  ∨ turned_away remove_self w (handleRemove cfg rpc i w).

(** The rule that, on a self-action, rejection is the same thing as the
    flag being off. *)
Definition self_action_rule (cfg : Config.t) (rpc : Rpc) (i : Interaction) (w : World)
  : Prop :=
  (add_rejected cfg rpc i w ↔ Config.allowSelfAdd (Config.points cfg) = false)
  ∧ (remove_rejected cfg rpc i w ↔ Config.allowSelfAdd (Config.points cfg) = false).

(** The handler of each kind of action. *)
Definition handle (kind : ActionType) : Config.t → Rpc → Interaction → M unit :=
  match kind with
  | ADD => handleAdd
  | REMOVE => handleRemove
  end.

(** An action that can only move the world along [R], whether it returns
    or throws. *)
Definition Step (R : relation World) {A} (m : M A) : Prop :=
  ∀ w, R w (m w).2.

(** The later world has everything the earlier one had sent, and maybe more. *)
Definition extends (w w' : World) : Prop :=
  ∃ l, outputs w' = outputs w ++ l.

(** The cooldown state stays among the reachable ones. *)
Definition keeps_cooldowns_reachable (w w' : World) : Prop :=
  CooldownInv.Reachable (clock w) (cooldown w) →
  CooldownInv.Reachable (clock w') (cooldown w').

(** What was sent between two worlds of one run. *)
Definition emitted (w w' : World) : list Output :=
  drop (length (outputs w)) (outputs w').

Definition is_ChannelSend (o : Output) : bool :=
  match o with ChannelSend _ _ => true | _ => false end.

(** The messages posted to channels during a run. *)
Definition channel_posts (w w' : World) : list Output :=
  List.filter is_ChannelSend (emitted w w').

(** The audit post for [data] in world [w]: one message to the log
    channel when that channel is configured and is a text channel, none
    otherwise; its text is made of the action type, the target, the
    amount, the executor and the clock's second. *)
Definition audit_post (w : World) (data : AuditData) : list Output :=
  match LOG_CHANNEL_ID w with
  | Some logChannelId =>
      if Js.truthy (Some logChannelId) then
        match channels w logChannelId with
        | FetchResolves (Some (mkChannel true)) =>
            [ChannelSend logChannelId (auditMessage data (clock w / 1000))]
        | _ => []
        end
      else []
  | None => []
  end.

End Admission.

Module Cast.
Import Supabase Runtime PointsCommand.

(** [config.js] with self-actions switched on. *)
Definition self_add_allowed : Config.t :=
  {| Config.allowedGuildId := Config.allowedGuildId Config.config;
     Config.pointManagers := Config.pointManagers Config.config;
     Config.superAdmins := Config.superAdmins Config.config;
     Config.points :=
       {| Config.allowSelfAdd := true;
          Config.allowNegativeBalance := false;
          Config.minAmount := 1;
          Config.maxAmount := 10000 |};
     Config.features := Config.features Config.config |}.

Definition admin : User := mkUser "937194748618354708" "admin".
Definition manager : User := mkUser "1232261529752178719" "manager".
Definition guest : User := mkUser "42" "guest".

(** A guest, neither manager nor admin, acting on their own account. *)
Definition guest_on_self : Interaction :=
  {| user := guest; option_user := guest; option_amount := 5; option_reason := None |}.

(** A super admin acting on their own account. *)
Definition admin_on_self : Interaction :=
  {| user := admin; option_user := admin; option_amount := 5; option_reason := None |}.

(** A super admin granting 50 points to a manager, with a reason. *)
Definition admin_grants : Interaction :=
  {| user := admin; option_user := manager; option_amount := 50;
     option_reason := Some "bonus" |}.

(** The same grant, without a reason. *)
Definition admin_grants_silently : Interaction :=
  {| user := admin; option_user := manager; option_amount := 50;
     option_reason := None |}.

(** A world whose log channel is a text channel. *)
Definition logged_world : World :=
  {| database := Scenario.ten_points; requests := []; clock := 1700000000000;
     cooldown := Cooldown.initial; LOG_CHANNEL_ID := Some "1450000000000000000";
     channels := λ _, FetchResolves (Some (mkChannel true)); outputs := [] |}.

(** The same surroundings over other tables: the manager has 30 points
    and a history. *)
Definition logged_world_other_balance : World :=
  {| database := Scenario.two_records; requests := []; clock := 1700000000000;
     cooldown := Cooldown.initial; LOG_CHANNEL_ID := Some "1450000000000000000";
     channels := λ _, FetchResolves (Some (mkChannel true)); outputs := [] |}.

End Cast.

Module CooldownCare.
Import Cooldown.

(** A clean-up for the pair is pending and due at [now]. *)
Definition due_for (now : Z) (ts : list Timer) (userId commandName : string) : bool :=
  existsb
    (λ t, bool_decide (fireAt t <= now ∧ timerUser t = userId ∧ timerCommand t = commandName))
    ts.

(** No user is kept with an empty map of commands. *)
Definition tidy (cds : Cooldowns) : Prop :=
  ∀ userId userCooldowns, cds !! userId = Some userCooldowns → userCooldowns ≠ ∅.

(** Every entry has its own clean-up pending, due when the entry expires. *)
Definition backed (st : State) : Prop :=
  ∀ userId commandName e,
    expiration (cooldowns st) userId commandName = Some e →
    ∃ t, t ∈ timers st ∧ timerUser t = userId ∧ timerCommand t = commandName
         ∧ fireAt t = e.

(** No clean-up for the pair is pending. *)
Definition no_pending (st : State) (userId commandName : string) : Prop :=
  ∀ t, t ∈ timers st → ¬ (timerUser t = userId ∧ timerCommand t = commandName).

End CooldownCare.

Module Flow.
Import Supabase Runtime DatabaseService Logger PointsCommand Ledger.

(** The cooldown key of each handler. *)
Definition commandName (kind : ActionType) : string :=
  match kind with
  | ADD => "points_add"
  | REMOVE => "points_remove"
  end.

(** The three checks a handler makes before it defers its reply: the
    permission, the self-action rule and the cooldown. *)
Definition admitted (cfg : Config.t) (kind : ActionType) (i : Interaction) (w : World)
  : bool :=
  Config.canManagePoints cfg (user_id (user i)) (user_id (option_user i))
  && negb (bool_decide (user_id (user i) = user_id (option_user i))
           && negb (Config.allowSelfAdd (Config.points cfg)))
  && negb (0 <? Cooldown.checkCooldown (Cooldown.cooldowns (cooldown w)) (clock w)
                  (user_id (user i)) (commandName kind)).

(** The arguments with which a handler calls [modify_points]. *)
Definition request_of (cfg : Config.t) (kind : ActionType) (i : Interaction)
  : ModifyPointsArgs :=
  match kind with
  | ADD =>
      addArgs (user_id (option_user i)) (user_id (user i)) (option_amount i)
        (Js.or_null (option_reason i))
  | REMOVE =>
      removeArgs (user_id (option_user i)) (user_id (user i)) (option_amount i)
        (Config.allowNegativeBalance (Config.points cfg))
        (Js.or_null (option_reason i))
  end.

(** The text shown while the action is processed. *)
Definition progress_text (kind : ActionType) : string :=
  match kind with
  | ADD =>
      "<a:time:1450781529700565073> **Processing transaction...**" +:+
      HistoryGenerator.LF +:+ "> Verifying permissions & updating balance"
  | REMOVE =>
      "<:admin:1450781535002427476> **Authorizing deduction...**" +:+
      HistoryGenerator.LF +:+ "> Running balance validation"
  end.

(** The world once the reply is deferred, the progress text shown and the
    1200 ms delay over. *)
Definition started (kind : ActionType) (w : World) : World :=
  with_cooldown (Cooldown.tick (clock w + 1200) (cooldown w))
    (with_clock (clock w + 1200)
       (with_output (EditReply (progress_text kind)) (with_output DeferReply w))).

(** The error a handler throws for a failure [message] of the service
    layer: [handleRemove] rewords the insufficient-balance one. *)
Definition handler_error (kind : ActionType) (i : Interaction) (message : string)
  : Js.Error :=
  match kind with
  | ADD => Js.mkError message
  | REMOVE =>
      if negb (bool_decide (message = "")) && Js.includes "Insufficient points" message
      then Js.mkError ("Cannot remove " +:+ Js.String_ (option_amount i) +:+
                       " points. User has insufficient balance.")
      else Js.mkError message
  end.

(** The fallback of the service layer for an empty database message. *)
Definition fallback (kind : ActionType) : string :=
  match kind with
  | ADD => "Failed to add points"
  | REMOVE => "Failed to remove points"
  end.

(** What the dispatcher shows for an error. *)
Definition error_text (error : Js.Error) : string :=
  "<:error:1450781522545086599> **Error:** " +:+
  or_else (Js.message error) "An unexpected error occurred.".

End Flow.

Module Cast2.
Import Supabase Runtime PointsCommand.

(** A super admin removing 15 points from the manager, who has 10. *)
Definition admin_removes_too_much : Interaction :=
  {| user := Cast.admin; option_user := Cast.manager; option_amount := 15;
     option_reason := None |}.

(** The manager asking for their own statement. *)
Definition manager_asks_own_history : HistoryCommand.Interaction :=
  {| HistoryCommand.user := Cast.manager; HistoryCommand.option_user := None |}.

(** A guest asking for the manager's statement. *)
Definition guest_asks_manager_history : HistoryCommand.Interaction :=
  {| HistoryCommand.user := Cast.guest; HistoryCommand.option_user := Some Cast.manager |}.

Definition is_direct (s : HistoryCommand.Sent) : bool :=
  match s with
  | HistoryCommand.SentDirect _ _ _ => true
  | _ => false
  end.

(** The text of a reply or of an edit of the reply. *)
Definition reply_text (s : HistoryCommand.Sent) : option string :=
  match s with
  | HistoryCommand.SentReply text _ => Some text
  | HistoryCommand.SentEditReply text => Some text
  | _ => None
  end.

End Cast2.

(* ===================================================================== *)
(** * Properties of the cooldown module *)
(* ===================================================================== *)

Section CooldownFacts.
Import Cooldown CooldownInv.

Lemma checkCooldown_expiration cds now userId commandName :
  checkCooldown cds now userId commandName =
  match expiration cds userId commandName with
  | None => 0
  | Some e => if now <? e then Js.ceil_div (e - now) 1000 else 0
  end.
Proof.
  unfold checkCooldown, expiration.
  destruct (cds !! userId) as [m|]; [|reflexivity].
  destruct (m !! commandName); reflexivity.
Qed.

Lemma ceil_div_bounds a b :
  0 < b → b * (Js.ceil_div a b - 1) < a <= b * Js.ceil_div a b.
Proof.
  intros Hb. unfold Js.ceil_div.
  pose proof (Z.mul_div_le (- a) b Hb).
  pose proof (Z.mul_succ_div_gt (- a) b Hb).
  lia.
Qed.

Lemma expiration_setCooldown st now userId commandName u c :
  expiration (cooldowns (setCooldown st now userId commandName)) u c =
  if decide (u = userId ∧ c = commandName) then Some (now + COOLDOWN_DURATION)
  else expiration (cooldowns st) u c.
Proof.
  unfold setCooldown, expiration; simpl.
  destruct (decide (u = userId)) as [->|Hu].
  - rewrite lookup_insert_eq.
    destruct (cooldowns st !! userId) as [m|] eqn:Hm.
    + rewrite Hm; simpl.
      destruct (decide (c = commandName)) as [->|Hc].
      * rewrite lookup_insert_eq. rewrite decide_True; auto.
      * rewrite lookup_insert_ne by auto. rewrite decide_False; tauto.
    + rewrite lookup_insert_eq; simpl.
      destruct (decide (c = commandName)) as [->|Hc].
      * rewrite lookup_insert_eq. rewrite decide_True; auto.
      * rewrite lookup_insert_ne by auto. rewrite lookup_empty.
        rewrite decide_False; tauto.
  - rewrite lookup_insert_ne by auto.
    rewrite decide_False by tauto.
    destruct (cooldowns st !! userId) as [m|] eqn:Hm; [reflexivity|].
    rewrite lookup_insert_ne by auto. reflexivity.
Qed.

Lemma expiration_cleanup cds userId commandName u c :
  expiration (cleanup userId commandName cds) u c =
  if decide (u = userId ∧ c = commandName) then None
  else expiration cds u c.
Proof.
  unfold cleanup, expiration.
  destruct (cds !! userId) as [m|] eqn:Hm.
  - simpl. destruct (decide (size (delete commandName m) = 0%nat)) as [Hsz|Hsz].
    + apply map_size_empty_iff in Hsz.
      destruct (decide (u = userId)) as [->|Hu].
      * rewrite lookup_delete_eq, Hm.
        destruct (decide (c = commandName)) as [->|Hc].
        -- rewrite decide_True; auto.
        -- rewrite decide_False by tauto.
           rewrite <- (lookup_delete_ne m commandName c) by auto.
           rewrite Hsz. apply eq_sym, lookup_empty.
      * rewrite lookup_delete_ne by auto. rewrite decide_False; tauto.
    + destruct (decide (u = userId)) as [->|Hu].
      * rewrite lookup_insert_eq, Hm.
        destruct (decide (c = commandName)) as [->|Hc].
        -- rewrite lookup_delete_eq. rewrite decide_True; auto.
        -- rewrite lookup_delete_ne by auto. rewrite decide_False; tauto.
      * rewrite lookup_insert_ne by auto. rewrite decide_False; tauto.
  - destruct (decide (u = userId ∧ c = commandName)) as [[-> ->]|Hn].
    + rewrite Hm. reflexivity.
    + reflexivity.
Qed.

Lemma bounded_cleanup now cds userId commandName :
  bounded now cds → bounded now (cleanup userId commandName cds).
Proof.
  intros Hb u c e. rewrite expiration_cleanup.
  case_decide; [discriminate|]. apply Hb.
Qed.

Lemma bounded_runTimers now t ts cds :
  bounded now cds → bounded now (runTimers t ts cds).1.
Proof.
  revert cds. induction ts as [|x r IH]; intros cds Hb; simpl; [exact Hb|].
  destruct (fireAt x <=? t).
  - apply IH, bounded_cleanup, Hb.
  - specialize (IH cds Hb). destruct (runTimers t r cds). exact IH.
Qed.

Lemma Reachable_bounded now st :
  Reachable now st → bounded now (cooldowns st).
Proof.
  induction 1 as [now|now st u c _ IH|now now' st _ IH Hle|now st _ IH|now st _ IH].
  - intros u c e. unfold expiration. simpl. rewrite lookup_empty. discriminate.
  - intros u' c' e. rewrite expiration_setCooldown.
    case_decide.
    + intros [= <-]. lia.
    + apply IH.
  - intros u c e He. specialize (IH u c e He). lia.
  - unfold tick.
    pose proof (bounded_runTimers now now (timers st) (cooldowns st) IH) as Hb.
    destruct (runTimers now (timers st) (cooldowns st)). exact Hb.
  - intros u c e. unfold expiration. simpl. rewrite lookup_empty. discriminate.
Qed.

End CooldownFacts.

Section CooldownClaims.
Import Cooldown CooldownInv.

(** C10.  In every reachable state and for every user and command,
    [checkCooldown] is 0 when the pair has no entry or its expiration time
    has passed; otherwise it is the ceiling of the remaining milliseconds
    over 1000, an integer between 1 and 3.  [setCooldown] for a pair
    stores [now + 3000] for it and leaves the entry, hence the answer of
    [checkCooldown] at any time, of every other pair as it was; so does the
    clean-up it schedules. *)
Theorem checkCooldown_setCooldown_contract
    (now : Z) (st : State) (userId commandName : string) :
  Reachable now st →
  let cds := cooldowns st in
  let remaining := checkCooldown cds now userId commandName in
  match expiration cds userId commandName with
  | None => remaining = 0
  | Some e =>
      if decide (e <= now) then remaining = 0
      else remaining = Js.ceil_div (e - now) 1000
           ∧ 1000 * (remaining - 1) < e - now <= 1000 * remaining
           ∧ 1 <= remaining <= 3
  end
  ∧ (∀ u c,
       expiration (cooldowns (setCooldown st now userId commandName)) u c =
       if decide (u = userId ∧ c = commandName) then Some (now + 3000)
       else expiration cds u c)
  ∧ (∀ u c t, ¬ (u = userId ∧ c = commandName) →
       checkCooldown (cooldowns (setCooldown st now userId commandName)) t u c =
       checkCooldown cds t u c
       ∧ checkCooldown (cleanup userId commandName cds) t u c =
         checkCooldown cds t u c).
Proof.
  intros Hreach cds remaining. split; [|split].
  - subst remaining. rewrite checkCooldown_expiration.
    destruct (expiration cds userId commandName) as [e|] eqn:He; [|reflexivity].
    case_decide as Hle.
    + destruct (Z.ltb_spec now e); [lia|reflexivity].
    + destruct (Z.ltb_spec now e); [|lia].
      pose proof (Reachable_bounded _ _ Hreach _ _ _ He) as Hb.
      unfold COOLDOWN_DURATION in Hb.
      pose proof (ceil_div_bounds (e - now) 1000 ltac:(lia)).
      split; [reflexivity|]. split; lia.
  - intros u c. apply expiration_setCooldown.
  - intros u c t Hne.
    rewrite !checkCooldown_expiration, expiration_setCooldown, expiration_cleanup.
    rewrite !decide_False by exact Hne. split; reflexivity.
Qed.

Lemma checkCooldown_setCooldown_contract_witness :
  Reachable 1500 Scenario.one_cooldown
  ∧ checkCooldown (cooldowns Scenario.one_cooldown) 1500
      "937194748618354708" "points_add" = 3.
Proof.
  set (st := Scenario.one_cooldown).
  assert (Hreach : Reachable 1500 st).
  { apply (Reachable_wait 1000); [|lia].
    apply Reachable_setCooldown, Reachable_initial. }
  split; [exact Hreach|].
  pose proof (checkCooldown_setCooldown_contract 1500 st
                "937194748618354708" "points_add" Hreach) as [H _].
  subst st. unfold Scenario.one_cooldown in *.
  rewrite expiration_setCooldown in H.
  rewrite decide_True in H by (split; reflexivity).
  unfold COOLDOWN_DURATION in H.
  rewrite decide_False in H by lia.
  destruct H as (H1 & H2 & H3). lia.
Defined.

End CooldownClaims.

(* ===================================================================== *)
(** * Properties of the service layer *)
(* ===================================================================== *)

Section ServiceFacts.
Import Supabase Runtime DatabaseService Ledger.

#[local] Instance newest_first_total : Total newest_first.
Proof. intros a b. unfold newest_first. lia. Qed.

#[local] Instance newest_first_trans : Transitive newest_first.
Proof. intros a b c. unfold newest_first. lia. Qed.

Lemma getUserPoints_balance (w : World) (userId : string) :
  getUserPoints userId w =
  (Js.Return (balance (database w) userId), with_request (ReqSelectPoints userId) w).
Proof.
  unfold getUserPoints, try_catch, bind, query_points, select_points_single, balance.
  destruct (staff_points (database w) !! userId) as [p|]; simpl.
  - unfold ret. destruct (Z.eqb_spec p 0) as [->|]; reflexivity.
  - reflexivity.
Qed.

(** C5.  For a user without a balance record, [getUserPoints] returns 0 and
    does not throw; it leaves the tables as they are, having sent the one
    read request. *)
Theorem getUserPoints_absent_is_zero (w : World) (userId : string) :
  staff_points (database w) !! userId = None →
  getUserPoints userId w =
  (Js.Return 0, with_request (ReqSelectPoints userId) w).
Proof.
  intros Habs. rewrite getUserPoints_balance. unfold balance.
  rewrite Habs. reflexivity.
Qed.

Lemma getUserPoints_absent_is_zero_witness :
  staff_points (database (Scenario.world_of Supabase.empty)) !! "42" = None
  ∧ getUserPoints "42" (Scenario.world_of Supabase.empty) =
    (Js.Return 0, with_request (ReqSelectPoints "42") (Scenario.world_of Supabase.empty)).
Proof.
  split; [reflexivity|].
  apply getUserPoints_absent_is_zero. reflexivity.
Defined.

(** C6.  [getPointsHistory] returns exactly the records of the user (a
    rearrangement of the rows of the table whose target is the user),
    each at least as new as every record after it; it returns the empty
    sequence when the table has no record of the user. *)
Theorem getPointsHistory_newest_first (w : World) (userId : string) :
  ∃ history,
    getPointsHistory userId w =
    (Js.Return history, with_request (ReqSelectHistory userId) w)
    ∧ history ≡ₚ records_of (database w) userId
    ∧ StronglySorted (λ a b, created_at b <= created_at a) history
    ∧ (records_of (database w) userId = [] → history = []).
Proof.
  exists (merge_sort newest_first (records_of (database w) userId)).
  split; [reflexivity|]. split; [|split].
  - apply merge_sort_Permutation.
  - apply (StronglySorted_merge_sort newest_first).
  - intros ->. reflexivity.
Qed.

Lemma getPointsHistory_newest_first_witness :
  records_of (database (Scenario.world_of Scenario.two_records)) "42" = []
  ∧ getPointsHistory "42" (Scenario.world_of Scenario.two_records) =
    (Js.Return [], with_request (ReqSelectHistory "42")
                     (Scenario.world_of Scenario.two_records)).
Proof.
  split; [reflexivity|].
  destruct (getPointsHistory_newest_first
              (Scenario.world_of Scenario.two_records) "42")
    as (history & Hrun & _ & _ & Hempty).
  rewrite Hrun, (Hempty eq_refl). reflexivity.
Defined.

Section AnyRpc.
Variable rpc : Rpc.

(** C2.  For an amount that is 0 or negative, [addPoints] and
    [removePoints] throw the invalid-amount error and leave the world
    untouched: no request has reached the store and no table has
    changed.  For an amount of 1 or more the validation lets the call
    through: the [modify_points] request reaches the store, with that
    amount. *)
Theorem amount_validation (w : World) (targetUserId actionByUserId : string)
    (amount : Z) (allowNegative : bool) (reason : option string) :
  if decide (amount <= 0) then
    (∃ e, isInvalidAmount e
          ∧ addPoints rpc targetUserId actionByUserId amount reason w
            = (Js.Throw e, w)
          ∧ removePoints rpc targetUserId actionByUserId amount allowNegative reason w
            = (Js.Throw e, w))
  else
    1 <= amount
    ∧ requests (addPoints rpc targetUserId actionByUserId amount reason w).2
      = requests w ++ [ReqRpcModifyPoints (addArgs targetUserId actionByUserId amount reason)]
    ∧ requests (removePoints rpc targetUserId actionByUserId amount allowNegative reason w).2
      = requests w ++
        [ReqRpcModifyPoints
           (removeArgs targetUserId actionByUserId amount allowNegative reason)].
Proof.
  unfold addPoints, removePoints.
  case_decide as Hamount.
  - exists (Js.mkError "Amount must be positive").
    destruct (Z.leb_spec amount 0); [|lia].
    repeat split.
  - destruct (Z.leb_spec amount 0); [lia|].
    split; [lia|].
    unfold try_catch, bind, call_rpc, addArgs, removeArgs.
    split.
    + destruct (rpc _ (clock w) (database w)) as [[d|e] db']; reflexivity.
    + destruct (rpc _ (clock w) (database w)) as [[d|e] db']; simpl.
      * reflexivity.
      * destruct (_ && _); reflexivity.
Qed.
End AnyRpc.

End ServiceFacts.

Section PolicyFacts.
Import Supabase Runtime DatabaseService Ledger.

Lemma removePoints_refused (w : World) (targetUserId actionByUserId : string)
    (amount : Z) (reason : option string) :
  1 <= amount →
  balance (database w) targetUserId - amount < 0 →
  removePoints LedgerEngine.modify_points
    targetUserId actionByUserId amount false reason w =
  (Js.Throw (Js.mkError "Insufficient points"),
   with_database (database w)
     (with_request
        (ReqRpcModifyPoints (removeArgs targetUserId actionByUserId amount false reason))
        w)).
Proof.
  intros Hamount Hneg. unfold balance in Hneg.
  unfold removePoints, try_catch, bind, call_rpc, LedgerEngine.modify_points.
  destruct (Z.leb_spec amount 0); [lia|]. simpl.
  destruct (Z.leb_spec amount 0); [lia|].
  destruct (Z.ltb_spec (default 0 (staff_points (database w) !! targetUserId) - amount) 0);
    [|lia].
  reflexivity.
Qed.

Lemma removePoints_allowed (w : World) (targetUserId actionByUserId : string)
    (amount : Z) (reason : option string) :
  1 <= amount →
  ∃ w',
    removePoints LedgerEngine.modify_points
      targetUserId actionByUserId amount true reason w =
    (Js.Return {| before := balance (database w) targetUserId;
                  after := balance (database w) targetUserId - amount |}, w')
    ∧ balance (database w') targetUserId = balance (database w) targetUserId - amount
    ∧ length (points_history (database w')) = S (length (points_history (database w))).
Proof.
  intros Hamount.
  unfold removePoints, try_catch, bind, call_rpc, LedgerEngine.modify_points.
  destruct (Z.leb_spec amount 0); [lia|]. simpl.
  destruct (Z.leb_spec amount 0); [lia|]. simpl.
  eexists. split; [reflexivity|]. simpl. split.
  - unfold balance at 1. simpl. rewrite lookup_insert_eq. reflexivity.
  - rewrite length_app. simpl. lia.
Qed.

(** C1 (amended).  For every call of [removePoints] with an amount of 1 or
    more whose candidate balance is below zero: with [allowNegative] false
    it throws an insufficient-balance error and the balance table and the
    history are as before; with [allowNegative] true it returns the
    negative balance, which is then the stored balance, and one record is
    appended. *)
Theorem removePoints_negative_balance_policy (w : World)
    (targetUserId actionByUserId : string) (amount : Z) (reason : option string) :
  1 <= amount →
  balance (database w) targetUserId - amount < 0 →
  negative_balance_policy w targetUserId actionByUserId amount reason.
Proof.
  intros Hamount Hneg. split.
  - eexists _, _. split; [apply removePoints_refused; assumption|].
    split; reflexivity.
  - destruct (removePoints_allowed w targetUserId actionByUserId amount reason Hamount)
      as (w' & Hrun & Hbal & Hlen).
    exists w'. auto.
Qed.

Lemma removePoints_negative_balance_policy_witness :
  1 <= 15
  ∧ balance (database (Scenario.world_of Scenario.ten_points)) "1232261529752178719" - 15 < 0
  ∧ negative_balance_policy (Scenario.world_of Scenario.ten_points)
      "1232261529752178719" "937194748618354708" 15 None.
Proof.
  split; [lia|]. split; [reflexivity|].
  apply removePoints_negative_balance_policy; [lia|reflexivity].
Defined.

(** C1 as first stated fails: with a stored balance of -5, removing 0 would
    leave a balance below zero, yet the call is turned away by the amount
    check, with the invalid-amount error rather than an
    insufficient-balance one. *)
Lemma removePoints_policy_not_for_invalid_amount :
  balance (database (Scenario.world_of Scenario.overdrawn)) "1232261529752178719" - 0 < 0
  ∧ ¬ negative_balance_policy (Scenario.world_of Scenario.overdrawn)
        "1232261529752178719" "937194748618354708" 0 None.
Proof.
  split; [reflexivity|].
  intros [(e & w' & Hrun & Hkind & _) _].
  unfold removePoints in Hrun. simpl in Hrun.
  injection Hrun as <- _.
  unfold isInsufficientBalance in Hkind. vm_compute in Hkind. discriminate.
Qed.

Example policy_example_balance_minus_five :
  (removePoints LedgerEngine.modify_points
     "1232261529752178719" "937194748618354708" 15 true None
     (Scenario.world_of Scenario.ten_points)).1
  = Js.Return {| before := 10; after := -5 |}.
Proof. reflexivity. Qed.

End PolicyFacts.

(* ===================================================================== *)
(** * Properties of the statement generator *)
(* ===================================================================== *)

Section StringFacts.

Lemma append_nil_l (s : string) : "" +:+ s = s.
Proof. reflexivity. Qed.

Lemma append_cons (a : ascii) (s t : string) :
  String a s +:+ t = String a (s +:+ t).
Proof. reflexivity. Qed.

Lemma append_assoc (s t u : string) : (s +:+ t) +:+ u = s +:+ (t +:+ u).
Proof.
  induction s as [|a s IH]; [reflexivity|].
  rewrite !append_cons, IH. reflexivity.
Qed.

Lemma join_cons_cons (sep x y : string) (l : list string) :
  Js.join sep (x :: y :: l) = x +:+ sep +:+ Js.join sep (y :: l).
Proof. reflexivity. Qed.

Lemma join_app (sep : string) (l1 l2 : list string) :
  l1 ≠ [] → l2 ≠ [] →
  Js.join sep (l1 ++ l2) = Js.join sep l1 +:+ sep +:+ Js.join sep l2.
Proof.
  intros H1 H2. induction l1 as [|x [|y l1] IH]; [congruence| |].
  - destruct l2 as [|z l2]; [congruence|]. reflexivity.
  - change ((x :: y :: l1) ++ l2) with (x :: y :: (l1 ++ l2)).
    rewrite !join_cons_cons.
    change (y :: l1 ++ l2) with ((y :: l1) ++ l2).
    rewrite IH by discriminate.
    rewrite !append_assoc. reflexivity.
Qed.

(** Decimal rendering never starts with a blank. *)
Lemma pretty_N_go_head (x : N) :
  ∀ s, (0 < x)%N →
       ∃ c r, pretty_N_go x s = String c r ∧ c ≠ " "%char.
Proof.
  induction x as [x IH] using (well_founded_induction N.lt_wf_0).
  intros s Hx. rewrite pretty_N_go_step by exact Hx.
  destruct (decide (x `div` 10 = 0)%N) as [Hz|Hz].
  - rewrite Hz, pretty_N_go_0. eexists _, _. split; [reflexivity|].
    unfold pretty_N_char. repeat case_match; discriminate.
  - apply IH.
    + apply N.div_lt; lia.
    + apply N.neq_0_lt_0, Hz.
Qed.

Lemma String_head (n : Z) :
  ∃ c r, Js.String_ n = String c r ∧ c ≠ " "%char.
Proof.
  unfold Js.String_, pretty, pretty_Z.
  destruct n as [|p|p].
  - eexists _, _. split; [reflexivity|discriminate].
  - unfold pretty, pretty_positive, pretty, pretty_N.
    rewrite decide_False by discriminate.
    apply pretty_N_go_head. lia.
  - eexists _, _. rewrite append_cons. split; [reflexivity|discriminate].
Qed.

Lemma spaces_append_inj (n m : nat) (c c' : ascii) (r r' : string) :
  c ≠ " "%char → c' ≠ " "%char →
  Js.spaces n +:+ String c r = Js.spaces m +:+ String c' r' →
  String c r = String c' r'.
Proof.
  intros Hc Hc'. revert m.
  induction n as [|n IH]; intros [|m]; simpl; rewrite ?append_cons, ?append_nil_l.
  - auto.
  - intros [= -> _]. congruence.
  - intros [= <- _]. congruence.
  - intros [= H]. eauto.
Qed.

Lemma padStart_String_inj (k : nat) (a b : Z) :
  Js.padStart k (Js.String_ a) = Js.padStart k (Js.String_ b) → a = b.
Proof.
  unfold Js.padStart. intros H.
  destruct (String_head a) as (c & r & Ha & Hc).
  destruct (String_head b) as (c' & r' & Hb & Hc').
  rewrite Ha, Hb in H.
  apply spaces_append_inj in H; [|assumption..].
  rewrite <- Ha, <- Hb in H.
  unfold Js.String_ in H. apply (inj pretty) in H. exact H.
Qed.

End StringFacts.

Section StatementFacts.
Import Supabase Runtime HistoryGenerator.

Lemma loop_lines (history : list HistoryRecord) (lines : list string) :
  fold_left (λ lines record, lines ++ recordLines record) history lines
  = lines ++ concat (map recordLines history).
Proof.
  revert lines. induction history as [|record history IH]; intros lines; simpl.
  - rewrite app_nil_r. reflexivity.
  - rewrite IH, <- app_assoc. reflexivity.
Qed.

Lemma statementLines_parts now user history :
  statementLines now user history
  = header now user ++ concat (map recordLines history) ++ footer history.
Proof.
  unfold statementLines. rewrite loop_lines, <- app_assoc. reflexivity.
Qed.

(** C3.  Whatever the clock, the user and the history, the statement ends
    with the thin rule, the closing-balance line, the rule and the notice;
    the closing-balance line shows, right-aligned on eight columns, the
    [after_points] of the first record of the history, and 0 when the
    history is empty; and the line shown determines that number. *)
Theorem closing_balance_line (now : Z) (user : User) (history : list HistoryRecord) :
  let shown :=
    match history with
    | record :: _ => after_points record
    | [] => 0
    end in
  let line :=
    "                     CLOSING BALANCE             " +:+
    Js.padStart 8 (Js.String_ shown) in
  (∃ above,
      statementLines now user history =
      above ++ [ thin_rule; line; rule; "* This is an automated record." ])
  ∧ (∃ text,
      generateHistoryFile now user history =
      text +:+ LF +:+ thin_rule +:+ LF +:+ line +:+ LF +:+ rule +:+ LF +:+
      "* This is an automated record.")
  ∧ (∀ other : Z,
      "                     CLOSING BALANCE             " +:+
      Js.padStart 8 (Js.String_ other) = line ↔ other = shown).
Proof.
  intros shown line.
  assert (Hlines : statementLines now user history =
                   (header now user ++ concat (map recordLines history)) ++
                   [ thin_rule; line; rule; "* This is an automated record." ]).
  { rewrite statementLines_parts, <- app_assoc. reflexivity. }
  split; [eauto|]. split.
  - exists (Js.join LF (header now user ++ concat (map recordLines history))).
    unfold generateHistoryFile. rewrite Hlines.
    rewrite join_app; [reflexivity|discriminate|discriminate].
  - intros other. split.
    + intros H. apply (inj (String.append _)) in H.
      apply padStart_String_inj in H. exact H.
    + intros ->. reflexivity.
Qed.

(** C4.  Two runs of [generateHistoryFile] on the same user and history
    differ at most in the fifth line, the one that carries the generation
    time: putting the second run's timestamp line into the first run's
    array gives the second run's array, and the text is a prefix and a
    suffix that do not depend on the clock, around that line.  The function
    takes the clock, the user and the history and nothing else: it reads
    no table. *)
Theorem generateHistoryFile_idempotent_modulo_timestamp
    (user : User) (history : list HistoryRecord) :
  (∀ now1 now2,
      <[4%nat := generatedLine now2]> (statementLines now1 user history)
      = statementLines now2 user history
      ∧ length (statementLines now1 user history)
        = length (statementLines now2 user history)
      ∧ statementLines now1 user history !! 4%nat = Some (generatedLine now1))
  ∧ (∃ prefix suffix,
      ∀ now,
        generateHistoryFile now user history
        = prefix +:+ generatedLine now +:+ suffix).
Proof.
  split.
  - intros now1 now2. rewrite !statementLines_parts. split; [reflexivity|].
    split; [|reflexivity].
    rewrite !length_app. reflexivity.
  - exists (Js.join LF (take 4 (header 0 user)) +:+ LF).
    exists (LF +:+ Js.join LF (drop 5 (header 0 user)
                                 ++ concat (map recordLines history)
                                 ++ footer history)).
    intros now. unfold generateHistoryFile. rewrite statementLines_parts.
    change (header now user) with
      (take 4 (header 0 user) ++ [generatedLine now] ++ drop 5 (header 0 user)).
    rewrite <- !app_assoc.
    rewrite join_app by discriminate.
    rewrite join_app by discriminate.
    rewrite !append_assoc. reflexivity.
Qed.

Example statement_of_two_records :
  generateHistoryFile 1700000300000 (mkUser "1232261529752178719" "staff")
    (merge_sort newest_first
       (Ledger.records_of Scenario.two_records "1232261529752178719"))
  = Js.join LF
      [ rule;
        "                  OFFICIAL POINTS STATEMENT";
        rule;
        "USER     : staff (ID: 1232261529752178719)";
        "GENERATED: 2023-11-14 22:18 UTC";
        rule;
        "DATE         TIME    ADMIN           ACTION      AMT    BALANCE";
        thin_rule;
        "2023-11-14   22:16   User_93719474   [REMOVE]       -20         30";
        "";
        "2023-11-14   22:13   User_93719474   [ADD]          +50         50";
        "                     Memo: bonus";
        "";
        thin_rule;
        "                     CLOSING BALANCE                   30";
        rule;
        "* This is an automated record." ].
Proof. vm_compute. reflexivity. Qed.

End StatementFacts.

(* ===================================================================== *)
(** * Properties of the handlers *)
(* ===================================================================== *)

Section ConfigFacts.
Import Config.
Variable cfg : Config.t.

Lemma canManagePoints_self (userId : string) :
  canManagePoints cfg userId userId =
  if isSuperAdmin cfg userId then true
  else isPointManager cfg userId && allowSelfAdd (points cfg).
Proof.
  unfold canManagePoints.
  destruct (isSuperAdmin cfg userId); [reflexivity|].
  destruct (isPointManager cfg userId); [|reflexivity].
  rewrite decide_True by reflexivity. reflexivity.
Qed.

Lemma isSuperAdmin_isPointManager (userId : string) :
  isSuperAdmin cfg userId = true → isPointManager cfg userId = true.
Proof. unfold isPointManager. intros ->. apply orb_true_r. Qed.

End ConfigFacts.

Section StepFacts.
Import Supabase Runtime DatabaseService Logger PointsCommand Admission.
Local Open Scope async_scope.

(** ** Composition of steps along a preorder *)

Section Along.
Variable R : relation World.
Context `{!PreOrder R}.

Lemma Step_silent {A} (m : M A) : (∀ w, (m w).2 = w) → Step R m.
Proof. intros H w. rewrite H. reflexivity. Qed.

Lemma Step_ret {A} (a : A) : Step R (ret a).
Proof. apply Step_silent. reflexivity. Qed.

Lemma Step_throw {A} (e : Js.Error) : Step R (@throw A e).
Proof. apply Step_silent. reflexivity. Qed.

Lemma Step_bind {A B} (m : M A) (k : A → M B) :
  Step R m → (∀ a, Step R (k a)) → Step R (bind m k).
Proof.
  intros Hm Hk w. unfold bind.
  specialize (Hm w). destruct (m w) as [[a|e] w1]; simpl in *.
  - etransitivity; [exact Hm|apply Hk].
  - exact Hm.
Qed.

Lemma Step_try_catch {A} (m : M A) (h : Js.Error → M A) :
  Step R m → (∀ e, Step R (h e)) → Step R (try_catch m h).
Proof.
  intros Hm Hh w. unfold try_catch.
  specialize (Hm w). destruct (m w) as [[a|e] w1]; simpl in *.
  - exact Hm.
  - etransitivity; [exact Hm|apply Hh].
Qed.

Lemma Step_if {A} (b : bool) (m1 m2 : M A) :
  Step R m1 → Step R m2 → Step R (if b then m1 else m2).
Proof. destruct b; auto. Qed.

Lemma Step_Date_now : Step R Date_now.
Proof. apply Step_silent. reflexivity. Qed.

Lemma Step_check_cooldown (u c : string) : Step R (check_cooldown u c).
Proof. apply Step_silent. reflexivity. Qed.

Lemma Step_fetch_channel (logChannelId : string) : Step R (fetch_channel logChannelId).
Proof.
  apply Step_silent. intros w. unfold fetch_channel.
  destruct (channels w logChannelId); reflexivity.
Qed.

(** The four primitives that do change the world. *)
Hypothesis R_emit : ∀ o, Step R (emit o).
Hypothesis R_sleep : ∀ ms, 0 <= ms → Step R (sleep ms).
Hypothesis R_call_rpc : ∀ rpc args, Step R (call_rpc rpc args).
Hypothesis R_set_cooldown : ∀ u c, Step R (set_cooldown u c).

(** One rule after the other, down the syntax of the action. *)
Ltac step :=
  repeat first
    [ apply Step_ret
    | apply Step_throw
    | apply R_emit
    | apply R_sleep; lia
    | apply R_call_rpc
    | apply R_set_cooldown
    | apply Step_Date_now
    | apply Step_check_cooldown
    | apply Step_fetch_channel
    | apply Step_if
    | apply Step_bind; [|intros ?]
    | apply Step_try_catch; [|intros ?]
    | match goal with
      | |- Step _ (match ?x with _ => _ end) => destruct x
      end ].

Lemma Step_addPoints rpc t a amount reason :
  Step R (addPoints rpc t a amount reason).
Proof. unfold addPoints. step. Qed.

Lemma Step_removePoints rpc t a amount allowNegative reason :
  Step R (removePoints rpc t a amount allowNegative reason).
Proof. unfold removePoints. step. Qed.

Lemma Step_post_audit (logChannelId : string) (data : AuditData) :
  Step R
    (try_catch
       (bind (fetch_channel logChannelId)
          (λ channel,
             match channel with
             | None => ret tt
             | Some (mkChannel false) => ret tt
             | Some (mkChannel true) =>
                 bind Date_now
                   (λ now,
                      let unixTimestamp := Js.floor_div now 1000 in
                      emit (ChannelSend logChannelId (auditMessage data unixTimestamp)))
             end))
       (λ _, ret tt)).
Proof. step. Qed.

Lemma Step_sendAuditLog (data : AuditData) : Step R (sendAuditLog data).
Proof.
  intros w. unfold sendAuditLog.
  destruct (negb (Js.truthy (LOG_CHANNEL_ID w))); [apply Step_ret|].
  apply (Step_post_audit (default "" (LOG_CHANNEL_ID w)) data w).
Qed.

(** What follows the cooldown check in each handler. *)
Lemma Step_handleAdd_tail (cfg : Config.t) rpc (i : Interaction) (text : string) :
  Step R
    (bind (emit (EditReply text))
       (λ _,
          try_catch
            (bind (sleep 1200)
               (λ _,
                  bind (addPoints rpc (user_id (option_user i)) (user_id (user i))
                          (option_amount i) (Js.or_null (option_reason i)))
                    (λ change,
                       bind (set_cooldown (user_id (user i)) "points_add")
                         (λ _,
                            bind (emit (EditReply
                                          (Js.join HistoryGenerator.LF
                                             ([ "<:up:1450773420362174605> <:success:1450781525812449280> **POINTS ADDED**";
                                                "";
                                                "**User:** " +:+ mention (option_user i);
                                                "**Before:** " +:+ Js.String_ (before change);
                                                "**Added:** +" +:+ Js.String_ (option_amount i);
                                                "**After:** " +:+ Js.String_ (after change) ]
                                              ++ reasonLine (Js.or_null (option_reason i))
                                              ++ [ ""; "────────────────────────────" ]))))
                              (λ _,
                                 sendAuditLog
                                   {| type := ADD; targetUser := option_user i;
                                      amount := option_amount i;
                                      executor := user i |})))))
            (λ error, throw error))).
Proof.
  apply Step_bind; [apply R_emit|]. intros _.
  apply Step_try_catch; [|intros; apply Step_throw].
  apply Step_bind; [apply R_sleep; lia|]. intros _.
  apply Step_bind; [apply Step_addPoints|]. intros change.
  apply Step_bind; [apply R_set_cooldown|]. intros _.
  apply Step_bind; [apply R_emit|]. intros _.
  apply Step_sendAuditLog.
Qed.

Lemma Step_handleRemove_tail (cfg : Config.t) rpc (i : Interaction) (text : string) :
  Step R
    (bind (emit (EditReply text))
       (λ _,
          try_catch
            (bind (sleep 1200)
               (λ _,
                  bind (removePoints rpc (user_id (option_user i)) (user_id (user i))
                          (option_amount i)
                          (Config.allowNegativeBalance (Config.points cfg))
                          (Js.or_null (option_reason i)))
                    (λ change,
                       bind (set_cooldown (user_id (user i)) "points_remove")
                         (λ _,
                            bind (emit (EditReply
                                          (Js.join HistoryGenerator.LF
                                             ([ "<:down:1450773447813632023> <:success:1450781525812449280> **POINTS DEDUCTED**";
                                                "";
                                                "**User:** " +:+ mention (option_user i);
                                                "**Before:** " +:+ Js.String_ (before change);
                                                "**Removed:** -" +:+ Js.String_ (option_amount i);
                                                "**After:** " +:+ Js.String_ (after change) ]
                                              ++ reasonLine (Js.or_null (option_reason i))
                                              ++ [ ""; "────────────────────────────" ]))))
                              (λ _,
                                 sendAuditLog
                                   {| type := REMOVE; targetUser := option_user i;
                                      amount := option_amount i;
                                      executor := user i |})))))
            (λ error,
               if negb (bool_decide (Js.message error = "")) &&
                  Js.includes "Insufficient points" (Js.message error)
               then throw (Js.mkError
                             ("Cannot remove " +:+ Js.String_ (option_amount i) +:+
                              " points. User has insufficient balance."))
               else throw error))).
Proof.
  apply Step_bind; [apply R_emit|]. intros _.
  apply Step_try_catch; [|intros; apply Step_if; apply Step_throw].
  apply Step_bind; [apply R_sleep; lia|]. intros _.
  apply Step_bind; [apply Step_removePoints|]. intros change.
  apply Step_bind; [apply R_set_cooldown|]. intros _.
  apply Step_bind; [apply R_emit|]. intros _.
  apply Step_sendAuditLog.
Qed.

Lemma Step_handleAdd (cfg : Config.t) rpc (i : Interaction) :
  Step R (handleAdd cfg rpc i).
Proof.
  unfold handleAdd.
  apply Step_if; [apply R_emit|].
  apply Step_if; [apply R_emit|].
  apply Step_bind; [apply Step_check_cooldown|]. intros r.
  apply Step_if; [apply R_emit|].
  apply Step_bind; [apply R_emit|]. intros _.
  apply (Step_handleAdd_tail cfg).
Qed.

Lemma Step_handleRemove (cfg : Config.t) rpc (i : Interaction) :
  Step R (handleRemove cfg rpc i).
Proof.
  unfold handleRemove.
  apply Step_if; [apply R_emit|].
  apply Step_if; [apply R_emit|].
  apply Step_bind; [apply Step_check_cooldown|]. intros r.
  apply Step_if; [apply R_emit|].
  apply Step_bind; [apply R_emit|]. intros _.
  apply (Step_handleRemove_tail cfg).
Qed.

End Along.

(** ** What has been sent only grows *)

#[global] Instance extends_preorder : PreOrder extends.
Proof.
  split.
  - intros w. exists []. rewrite app_nil_r. reflexivity.
  - intros w1 w2 w3 [l1 H1] [l2 H2]. exists (l1 ++ l2).
    rewrite H2, H1, app_assoc. reflexivity.
Qed.

Lemma extends_emit (o : Output) : Step extends (emit o).
Proof. intros w. exists [o]. reflexivity. Qed.

Lemma extends_same_outputs {A} (m : M A) :
  (∀ w, outputs (m w).2 = outputs w) → Step extends m.
Proof. intros H w. exists []. rewrite H, app_nil_r. reflexivity. Qed.

Lemma extends_sleep (ms : Z) : 0 <= ms → Step extends (sleep ms).
Proof. intros _. apply extends_same_outputs. reflexivity. Qed.

Lemma extends_call_rpc (rpc : Rpc) (args : ModifyPointsArgs) :
  Step extends (call_rpc rpc args).
Proof.
  apply extends_same_outputs. intros w. unfold call_rpc.
  destruct (rpc args (clock w) (database w)). reflexivity.
Qed.

Lemma extends_set_cooldown (u c : string) : Step extends (set_cooldown u c).
Proof. apply extends_same_outputs. reflexivity. Qed.

(** ** The cooldown state stays reachable *)

#[global] Instance keeps_cooldowns_reachable_preorder :
  PreOrder keeps_cooldowns_reachable.
Proof.
  split.
  - intros w H. exact H.
  - intros w1 w2 w3 H12 H23 H. apply H23, H12, H.
Qed.

Lemma reachable_emit (o : Output) : Step keeps_cooldowns_reachable (emit o).
Proof. intros w H. exact H. Qed.

Lemma reachable_sleep (ms : Z) : 0 <= ms → Step keeps_cooldowns_reachable (sleep ms).
Proof.
  intros Hms w H. simpl.
  apply CooldownInv.Reachable_tick.
  apply (CooldownInv.Reachable_wait (clock w)); [exact H|lia].
Qed.

Lemma reachable_call_rpc (rpc : Rpc) (args : ModifyPointsArgs) :
  Step keeps_cooldowns_reachable (call_rpc rpc args).
Proof.
  intros w H. unfold call_rpc.
  destruct (rpc args (clock w) (database w)). exact H.
Qed.

Lemma reachable_set_cooldown (u c : string) :
  Step keeps_cooldowns_reachable (set_cooldown u c).
Proof. intros w H. simpl. apply CooldownInv.Reachable_setCooldown, H. Qed.

(** Both handlers keep the cooldown state among the reachable ones: the
    states in which [checkCooldown] is consulted are those of
    [CooldownInv.Reachable]. *)
Lemma handlers_keep_cooldowns_reachable
    (cfg : Config.t) (rpc : Rpc) (kind : ActionType) (i : Interaction) (w : World) :
  CooldownInv.Reachable (clock w) (cooldown w) →
  CooldownInv.Reachable (clock (handle kind cfg rpc i w).2)
    (cooldown (handle kind cfg rpc i w).2).
Proof.
  destruct kind; simpl.
  - apply (Step_handleAdd keeps_cooldowns_reachable reachable_emit reachable_sleep
             reachable_call_rpc reachable_set_cooldown).
  - apply (Step_handleRemove keeps_cooldowns_reachable reachable_emit reachable_sleep
             reachable_call_rpc reachable_set_cooldown).
Qed.

End StepFacts.

Section AdmissionFacts.
Import Supabase Runtime DatabaseService Logger PointsCommand Admission.
Local Open Scope async_scope.

Variable cfg : Config.t.
Variable rpc : Rpc.

Lemma slowDown_not_error (r : Z) (m : string) :
  Js.startsWith "<:e" m = true → slowDown r ≠ m.
Proof.
  intros Hm Heq. subst m. unfold slowDown in Hm.
  rewrite !append_cons in Hm. simpl in Hm. discriminate.
Qed.

Lemma with_output_inj (o1 o2 : Output) (w : World) :
  with_output o1 w = with_output o2 w → o1 = o2.
Proof.
  intros H. apply (f_equal outputs) in H. simpl in H.
  apply app_inv_head in H. congruence.
Qed.

(** Once the two checks are passed, whatever happens next is not one of
    the rejections. *)
Lemma handleAdd_admitted_run (i : Interaction) (w : World) (m : string) :
  Config.canManagePoints cfg (user_id (user i)) (user_id (option_user i)) = true →
  bool_decide (user_id (user i) = user_id (option_user i))
    && negb (Config.allowSelfAdd (Config.points cfg)) = false →
  Js.startsWith "<:e" m = true →
  ¬ turned_away m w (handleAdd cfg rpc i w).
Proof.
  intros Hperm Hself Hm. unfold turned_away, handleAdd.
  rewrite Hperm, Hself. cbn [negb].
  unfold bind at 1. unfold check_cooldown at 1.
  destruct (0 <? _).
  - unfold emit. intros H.
    apply (f_equal snd) in H. apply with_output_inj in H.
    injection H as H. revert H. apply slowDown_not_error, Hm.
  - unfold bind at 1. unfold emit at 1.
    match goal with
    | |- ¬ (?k ?w1 = _) => assert (Hk : Step extends k)
    end.
    { apply (Step_handleAdd_tail extends extends_emit extends_sleep
               extends_call_rpc extends_set_cooldown cfg). }
    destruct (Hk (with_output DeferReply w)) as [l Hl].
    intros H. rewrite H in Hl. simpl in Hl.
    rewrite <- app_assoc in Hl. apply app_inv_head in Hl. discriminate.
Qed.

Lemma handleAdd_admitted (i : Interaction) (w : World) :
  Config.canManagePoints cfg (user_id (user i)) (user_id (option_user i)) = true →
  bool_decide (user_id (user i) = user_id (option_user i))
    && negb (Config.allowSelfAdd (Config.points cfg)) = false →
  ¬ add_rejected cfg rpc i w.
Proof.
  intros Hperm Hself [H|H]; revert H;
    apply handleAdd_admitted_run; auto.
Qed.

Lemma handleRemove_admitted_run (i : Interaction) (w : World) (m : string) :
  Config.canManagePoints cfg (user_id (user i)) (user_id (option_user i)) = true →
  bool_decide (user_id (user i) = user_id (option_user i))
    && negb (Config.allowSelfAdd (Config.points cfg)) = false →
  Js.startsWith "<:e" m = true →
  ¬ turned_away m w (handleRemove cfg rpc i w).
Proof.
  intros Hperm Hself Hm. unfold turned_away, handleRemove.
  rewrite Hperm, Hself. cbn [negb].
  unfold bind at 1. unfold check_cooldown at 1.
  destruct (0 <? _).
  - unfold emit. intros H.
    apply (f_equal snd) in H. apply with_output_inj in H.
    injection H as H. revert H. apply slowDown_not_error, Hm.
  - unfold bind at 1. unfold emit at 1.
    match goal with
    | |- ¬ (?k ?w1 = _) => assert (Hk : Step extends k)
    end.
    { apply (Step_handleRemove_tail extends extends_emit extends_sleep
               extends_call_rpc extends_set_cooldown cfg). }
    destruct (Hk (with_output DeferReply w)) as [l Hl].
    intros H. rewrite H in Hl. simpl in Hl.
    rewrite <- app_assoc in Hl. apply app_inv_head in Hl. discriminate.
Qed.

Lemma handleRemove_admitted (i : Interaction) (w : World) :
  Config.canManagePoints cfg (user_id (user i)) (user_id (option_user i)) = true →
  bool_decide (user_id (user i) = user_id (option_user i))
    && negb (Config.allowSelfAdd (Config.points cfg)) = false →
  ¬ remove_rejected cfg rpc i w.
Proof.
  intros Hperm Hself [H|H]; revert H;
    apply handleRemove_admitted_run; auto.
Qed.

(** With the flag off, a self-action ends at one of the two checks. *)
Lemma handleAdd_self_flag_off (i : Interaction) (w : World) :
  Config.allowSelfAdd (Config.points cfg) = false →
  user_id (user i) = user_id (option_user i) →
  handleAdd cfg rpc i w =
  (Js.Return tt,
   with_output
     (Reply (if Config.isSuperAdmin cfg (user_id (user i))
             then add_self else add_denied) true) w).
Proof.
  intros Hflag Hself. unfold handleAdd.
  rewrite <- Hself, canManagePoints_self, Hflag, andb_false_r.
  rewrite bool_decide_eq_true_2 by reflexivity.
  destruct (Config.isSuperAdmin cfg (user_id (user i))); reflexivity.
Qed.

Lemma handleRemove_self_flag_off (i : Interaction) (w : World) :
  Config.allowSelfAdd (Config.points cfg) = false →
  user_id (user i) = user_id (option_user i) →
  handleRemove cfg rpc i w =
  (Js.Return tt,
   with_output
     (Reply (if Config.isSuperAdmin cfg (user_id (user i))
             then remove_self else remove_denied) true) w).
Proof.
  intros Hflag Hself. unfold handleRemove.
  rewrite <- Hself, canManagePoints_self, Hflag, andb_false_r.
  rewrite bool_decide_eq_true_2 by reflexivity.
  destruct (Config.isSuperAdmin cfg (user_id (user i))); reflexivity.
Qed.

(** Whoever is not a point manager is turned away, whatever the flag. *)
Lemma handleAdd_outsider (i : Interaction) (w : World) :
  Config.isPointManager cfg (user_id (user i)) = false →
  handleAdd cfg rpc i w = (Js.Return tt, with_output (Reply add_denied true) w).
Proof.
  intros Hpm. unfold handleAdd, Config.canManagePoints.
  assert (Config.isSuperAdmin cfg (user_id (user i)) = false) as ->.
  { unfold Config.isPointManager in Hpm. apply orb_false_elim in Hpm. tauto. }
  rewrite Hpm. reflexivity.
Qed.

Lemma handleRemove_outsider (i : Interaction) (w : World) :
  Config.isPointManager cfg (user_id (user i)) = false →
  handleRemove cfg rpc i w = (Js.Return tt, with_output (Reply remove_denied true) w).
Proof.
  intros Hpm. unfold handleRemove, Config.canManagePoints.
  assert (Config.isSuperAdmin cfg (user_id (user i)) = false) as ->.
  { unfold Config.isPointManager in Hpm. apply orb_false_elim in Hpm. tauto. }
  rewrite Hpm. reflexivity.
Qed.

End AdmissionFacts.

Section AdmissionClaims.
Import Supabase Runtime DatabaseService Logger PointsCommand Admission.

(** C9.  With [allowSelfAdd] off, for every executor acting on their own
    identity, super admins included, [handleAdd] and [handleRemove] return
    after a single ephemeral rejection: no request reaches the store and
    the tables and cooldowns are untouched.  For a super admin
    [canManagePoints] answers true, and it is the handler's own
    self-action check that rejects. *)
Theorem self_action_blocked_when_flag_off
    (cfg : Config.t) (rpc : Rpc) (i : Interaction) (w : World) :
  Config.allowSelfAdd (Config.points cfg) = false →
  user_id (user i) = user_id (option_user i) →
  let executorId := user_id (user i) in
  Config.canManagePoints cfg executorId executorId = Config.isSuperAdmin cfg executorId
  ∧ handleAdd cfg rpc i w =
    (Js.Return tt,
     with_output
       (Reply (if Config.isSuperAdmin cfg executorId then add_self else add_denied)
          true) w)
  ∧ handleRemove cfg rpc i w =
    (Js.Return tt,
     with_output
       (Reply (if Config.isSuperAdmin cfg executorId then remove_self else remove_denied)
          true) w)
  ∧ requests (handleAdd cfg rpc i w).2 = requests w
  ∧ requests (handleRemove cfg rpc i w).2 = requests w
  ∧ database (handleAdd cfg rpc i w).2 = database w
  ∧ database (handleRemove cfg rpc i w).2 = database w.
Proof.
  intros Hflag Hself executorId.
  pose proof (handleAdd_self_flag_off cfg rpc i w Hflag Hself) as Hadd.
  pose proof (handleRemove_self_flag_off cfg rpc i w Hflag Hself) as Hrem.
  split.
  { rewrite canManagePoints_self, Hflag, andb_false_r.
    destruct (Config.isSuperAdmin cfg executorId); reflexivity. }
  split; [exact Hadd|]. split; [exact Hrem|].
  rewrite Hadd, Hrem. repeat split; reflexivity.
Qed.

Lemma self_action_blocked_when_flag_off_witness :
  Config.allowSelfAdd (Config.points Config.config) = false
  ∧ user_id (user Cast.admin_on_self) = user_id (option_user Cast.admin_on_self)
  ∧ handleAdd Config.config LedgerEngine.modify_points Cast.admin_on_self
      (Scenario.world_of Scenario.ten_points) =
    (Js.Return tt,
     with_output (Reply add_self true) (Scenario.world_of Scenario.ten_points)).
Proof.
  split; [reflexivity|]. split; [reflexivity|].
  exact (proj1 (proj2 (self_action_blocked_when_flag_off
                         Config.config LedgerEngine.modify_points Cast.admin_on_self
                         (Scenario.world_of Scenario.ten_points) eq_refl eq_refl))).
Defined.

(** C8 (amended).  For an executor acting on their own identity who is a
    point manager or a super admin, [handleAdd] rejects the action exactly
    when [allowSelfAdd] is off, and so does [handleRemove], on the same
    flag.  An executor who is neither is rejected by both, whatever the
    flag. *)
Theorem self_action_single_flag
    (cfg : Config.t) (rpc : Rpc) (i : Interaction) (w : World) :
  user_id (user i) = user_id (option_user i) →
  if Config.isPointManager cfg (user_id (user i))
  then self_action_rule cfg rpc i w
  else add_rejected cfg rpc i w ∧ remove_rejected cfg rpc i w.
Proof.
  intros Hself.
  destruct (Config.isPointManager cfg (user_id (user i))) eqn:Hpm.
  - unfold self_action_rule.
    destruct (Config.allowSelfAdd (Config.points cfg)) eqn:Hflag.
    + assert (Hperm : Config.canManagePoints cfg (user_id (user i))
                        (user_id (option_user i)) = true).
      { rewrite <- Hself, canManagePoints_self, Hpm, Hflag.
        destruct (Config.isSuperAdmin cfg (user_id (user i))); reflexivity. }
      assert (Hcheck : bool_decide (user_id (user i) = user_id (option_user i))
                       && negb (Config.allowSelfAdd (Config.points cfg)) = false).
      { rewrite Hflag. apply andb_false_r. }
      split; (split; [|discriminate]); intros Hrej; exfalso; revert Hrej.
      * apply handleAdd_admitted; assumption.
      * apply handleRemove_admitted; assumption.
    + split; (split; [reflexivity|]); intros _.
      * unfold add_rejected, turned_away.
        rewrite (handleAdd_self_flag_off cfg rpc i w Hflag Hself).
        destruct (Config.isSuperAdmin cfg (user_id (user i))); auto.
      * unfold remove_rejected, turned_away.
        rewrite (handleRemove_self_flag_off cfg rpc i w Hflag Hself).
        destruct (Config.isSuperAdmin cfg (user_id (user i))); auto.
  - split.
    + left. apply handleAdd_outsider, Hpm.
    + left. apply handleRemove_outsider, Hpm.
Qed.

Lemma self_action_single_flag_witness :
  user_id (user Cast.admin_on_self) = user_id (option_user Cast.admin_on_self)
  ∧ self_action_rule Config.config LedgerEngine.modify_points Cast.admin_on_self
      (Scenario.world_of Scenario.ten_points).
Proof.
  split; [reflexivity|].
  exact (self_action_single_flag Config.config LedgerEngine.modify_points
           Cast.admin_on_self (Scenario.world_of Scenario.ten_points) eq_refl).
Defined.

(** C8 as first stated fails: a guest who is neither point manager nor
    super admin, acting on their own identity while [allowSelfAdd] is on,
    is rejected all the same, by the permission check. *)
Lemma self_action_rule_fails_for_outsiders :
  user_id (user Cast.guest_on_self) = user_id (option_user Cast.guest_on_self)
  ∧ Config.allowSelfAdd (Config.points Cast.self_add_allowed) = true
  ∧ add_rejected Cast.self_add_allowed LedgerEngine.modify_points Cast.guest_on_self
      (Scenario.world_of Supabase.empty)
  ∧ ¬ self_action_rule Cast.self_add_allowed LedgerEngine.modify_points
        Cast.guest_on_self (Scenario.world_of Supabase.empty).
Proof.
  assert (Hrej : add_rejected Cast.self_add_allowed LedgerEngine.modify_points
                   Cast.guest_on_self (Scenario.world_of Supabase.empty)).
  { left. apply handleAdd_outsider. reflexivity. }
  split; [reflexivity|]. split; [reflexivity|]. split; [exact Hrej|].
  intros [[Hadd _] _]. specialize (Hadd Hrej). discriminate.
Qed.

End AdmissionClaims.

Section AuditFacts.
Import Supabase Runtime DatabaseService Logger PointsCommand Admission.
Local Open Scope async_scope.

Variable cfg : Config.t.
Variable rpc : Rpc.

(** A run that stopped at a reply has sent no request. *)
Ltac stopped_early H Hreq :=
  unfold emit, throw in H; apply (f_equal snd) in H; simpl in H; subst;
  exfalso; apply Hreq; reflexivity.

Lemma emitted_app (w w' : World) (l : list Output) :
  outputs w' = outputs w ++ l → emitted w w' = l.
Proof. intros H. unfold emitted. rewrite H. apply drop_app_length. Qed.

(** What [sendAuditLog] posts, and that it changes nothing else. *)
Lemma sendAuditLog_run (data : AuditData) (w : World) :
  ∃ w', sendAuditLog data w = (Js.Return tt, w')
        ∧ outputs w' = outputs w ++ audit_post w data
        ∧ requests w' = requests w
        ∧ clock w' = clock w
        ∧ LOG_CHANNEL_ID w' = LOG_CHANNEL_ID w
        ∧ channels w' = channels w.
Proof.
  unfold sendAuditLog, audit_post.
  destruct (LOG_CHANNEL_ID w) as [logChannelId|] eqn:Hid.
  - destruct (Js.truthy (Some logChannelId)) eqn:Htruthy; cbn [negb].
    + change (default "" (Some logChannelId)) with logChannelId.
      unfold try_catch, bind, fetch_channel.
      destruct (channels w logChannelId) as [|[[[|]]|]] eqn:Hch; simpl;
        eexists; (split; [reflexivity|]); simpl;
        rewrite ?app_nil_r, ?Hid; auto.
    + eexists. split; [reflexivity|]. rewrite app_nil_r, Hid. auto.
  - eexists. split; [reflexivity|]. rewrite app_nil_r, Hid. auto.
Qed.

Lemma audit_post_same_env (w1 w2 : World) (data : AuditData) :
  clock w1 = clock w2 → LOG_CHANNEL_ID w1 = LOG_CHANNEL_ID w2 →
  channels w1 = channels w2 →
  audit_post w1 data = audit_post w2 data.
Proof. unfold audit_post. intros -> -> ->. reflexivity. Qed.

Lemma filter_audit_post (w : World) (data : AuditData) :
  List.filter is_ChannelSend (audit_post w data) = audit_post w data.
Proof.
  unfold audit_post.
  destruct (LOG_CHANNEL_ID w) as [l|]; [|reflexivity].
  destruct (Js.truthy (Some l)); [|reflexivity].
  destruct (channels w l) as [|[[[|]]|]]; reflexivity.
Qed.

Lemma filter_progress (a b : string) (l : list Output) :
  List.filter is_ChannelSend ([DeferReply; EditReply a; EditReply b] ++ l)
  = List.filter is_ChannelSend l.
Proof. reflexivity. Qed.

(** The last step of a successful run, from the world [w1] in which the
    audit log is sent. *)
Lemma audit_step (data : AuditData) (w w1 w' : World) (a b : string) :
  sendAuditLog data w1 = (Js.Return tt, w') →
  outputs w1 = outputs w ++ [DeferReply; EditReply a; EditReply b] →
  clock w1 = clock w + 1200 →
  LOG_CHANNEL_ID w1 = LOG_CHANNEL_ID w →
  channels w1 = channels w →
  channel_posts w w' = audit_post w' data
  ∧ clock w' = clock w + 1200
  ∧ LOG_CHANNEL_ID w' = LOG_CHANNEL_ID w
  ∧ channels w' = channels w.
Proof.
  intros Hsend Hout1 Hclock1 Hid1 Hch1.
  destruct (sendAuditLog_run data w1) as (w2 & Hrun & Hout & _ & Hclock & Hid & Hch).
  rewrite Hrun in Hsend. injection Hsend as <-.
  split; [|split; [|split]]; try congruence.
  unfold channel_posts.
  erewrite emitted_app; [|rewrite Hout, Hout1, <- app_assoc; reflexivity].
  rewrite filter_progress, filter_audit_post.
  apply audit_post_same_env; congruence.
Qed.

Lemma handleAdd_audit (i : Interaction) (w w' : World) :
  handleAdd cfg rpc i w = (Js.Return tt, w') →
  requests w' ≠ requests w →
  channel_posts w w' =
    audit_post w' {| type := ADD; targetUser := option_user i;
                     amount := option_amount i; executor := user i |}
  ∧ clock w' = clock w + 1200
  ∧ LOG_CHANNEL_ID w' = LOG_CHANNEL_ID w
  ∧ channels w' = channels w.
Proof.
  unfold handleAdd. intros H Hreq.
  destruct (negb (Config.canManagePoints _ _ _)); [stopped_early H Hreq|].
  destruct (_ && _); [stopped_early H Hreq|].
  unfold bind at 1 in H. unfold check_cooldown at 1 in H.
  destruct (0 <? _); [stopped_early H Hreq|].
  unfold bind at 1 in H. unfold emit at 1 in H.
  unfold bind at 1 in H. unfold emit at 1 in H.
  cbv zeta in H. unfold try_catch at 1 in H.
  unfold bind at 1 in H. unfold sleep at 1 in H.
  unfold bind at 1 in H. unfold addPoints in H.
  destruct (option_amount i <=? 0); [unfold throw in H; discriminate|].
  unfold try_catch at 1, bind at 1, call_rpc in H.
  destruct (rpc _ _ _) as [[d|e] db']; [|unfold throw in H; discriminate].
  unfold ret at 1 in H.
  unfold bind at 1 in H. unfold set_cooldown at 1 in H.
  unfold bind at 1 in H. unfold emit at 1 in H.
  destruct (sendAuditLog _ _) as [[[]|e] w2] eqn:Hsend; [|discriminate].
  injection H as <-.
  eapply audit_step; [exact Hsend| |reflexivity..].
  simpl. rewrite <- !app_assoc. reflexivity.
Qed.

Lemma handleRemove_audit (i : Interaction) (w w' : World) :
  handleRemove cfg rpc i w = (Js.Return tt, w') →
  requests w' ≠ requests w →
  channel_posts w w' =
    audit_post w' {| type := REMOVE; targetUser := option_user i;
                     amount := option_amount i; executor := user i |}
  ∧ clock w' = clock w + 1200
  ∧ LOG_CHANNEL_ID w' = LOG_CHANNEL_ID w
  ∧ channels w' = channels w.
Proof.
  unfold handleRemove. intros H Hreq.
  destruct (negb (Config.canManagePoints _ _ _)); [stopped_early H Hreq|].
  destruct (_ && _); [stopped_early H Hreq|].
  unfold bind at 1 in H. unfold check_cooldown at 1 in H.
  destruct (0 <? _); [stopped_early H Hreq|].
  unfold bind at 1 in H. unfold emit at 1 in H.
  unfold bind at 1 in H. unfold emit at 1 in H.
  cbv zeta in H. unfold try_catch at 1 in H.
  unfold bind at 1 in H. unfold sleep at 1 in H.
  unfold bind at 1 in H. unfold removePoints in H.
  destruct (option_amount i <=? 0).
  { unfold throw at 1 in H. destruct (_ && _); unfold throw in H; discriminate. }
  unfold try_catch at 1, bind at 1, call_rpc in H.
  destruct (rpc _ _ _) as [[d|e] db'].
  2:{ destruct (negb _ && _) in H; unfold throw at 1 2 in H;
      destruct (_ && _) in H; unfold throw in H; discriminate. }
  unfold ret at 1 in H.
  unfold bind at 1 in H. unfold set_cooldown at 1 in H.
  unfold bind at 1 in H. unfold emit at 1 in H.
  destruct (sendAuditLog _ _) as [[[]|e] w2] eqn:Hsend.
  2:{ destruct (_ && _) in H; unfold throw in H; discriminate. }
  injection H as <-.
  eapply audit_step; [exact Hsend| |reflexivity..].
  simpl. rewrite <- !app_assoc. reflexivity.
Qed.

End AuditFacts.

Section AuditClaims.
Import Supabase Runtime DatabaseService Logger PointsCommand Admission.

(** C7.  Take two runs of the add handler, or two of the remove handler,
    that both went through to the store and returned: same executor,
    target and amount, same clock and log channel; the tables, the remote
    procedure's answers (hence the balances before and after) and the
    reasons may differ.  The channel posts of a run are exactly the audit
    post: at most one message, whose text is [auditMessage] of the action
    type, the target, the amount, the executor and the clock's second.
    The two runs post the same. *)
Theorem audit_log_minimal
    (cfg : Config.t) (kind : ActionType) (rpc1 rpc2 : Rpc)
    (i1 i2 : Interaction) (w1 w2 w1' w2' : World) :
  handle kind cfg rpc1 i1 w1 = (Js.Return tt, w1') →
  requests w1' ≠ requests w1 →
  handle kind cfg rpc2 i2 w2 = (Js.Return tt, w2') →
  requests w2' ≠ requests w2 →
  user i1 = user i2 →
  option_user i1 = option_user i2 →
  option_amount i1 = option_amount i2 →
  clock w1 = clock w2 →
  LOG_CHANNEL_ID w1 = LOG_CHANNEL_ID w2 →
  channels w1 = channels w2 →
  let data := {| type := kind; targetUser := option_user i1;
                 amount := option_amount i1; executor := user i1 |} in
  channel_posts w1 w1' = audit_post w1' data
  ∧ Forall (λ o, ∃ channelId,
              o = ChannelSend channelId (auditMessage data (clock w1' / 1000)))
      (channel_posts w1 w1')
  ∧ channel_posts w2 w2' = channel_posts w1 w1'.
Proof.
  intros Hrun1 Hreq1 Hrun2 Hreq2 Huser Htarget Hamount Hclock Hid Hch data.
  assert (H1 : channel_posts w1 w1' = audit_post w1' data
               ∧ clock w1' = clock w1 + 1200
               ∧ LOG_CHANNEL_ID w1' = LOG_CHANNEL_ID w1
               ∧ channels w1' = channels w1).
  { destruct kind; [apply (handleAdd_audit cfg rpc1)|apply (handleRemove_audit cfg rpc1)];
      assumption. }
  assert (H2 : channel_posts w2 w2' = audit_post w2' data
               ∧ clock w2' = clock w2 + 1200
               ∧ LOG_CHANNEL_ID w2' = LOG_CHANNEL_ID w2
               ∧ channels w2' = channels w2).
  { subst data. rewrite Huser, Htarget, Hamount.
    destruct kind; [apply (handleAdd_audit cfg rpc2)|apply (handleRemove_audit cfg rpc2)];
      assumption. }
  destruct H1 as (Hposts1 & Hc1 & Hid1 & Hch1).
  destruct H2 as (Hposts2 & Hc2 & Hid2 & Hch2).
  split; [exact Hposts1|]. split.
  - rewrite Hposts1. unfold audit_post.
    destruct (LOG_CHANNEL_ID w1') as [l|]; [|constructor].
    destruct (Js.truthy (Some l)); [|constructor].
    destruct (channels w1' l) as [|[[[|]]|]]; repeat constructor.
    exists l. reflexivity.
  - rewrite Hposts1, Hposts2. apply audit_post_same_env; congruence.
Qed.

Lemma audit_log_minimal_witness :
  channel_posts Cast.logged_world
    (handleAdd Config.config LedgerEngine.modify_points Cast.admin_grants
       Cast.logged_world).2
  = [ ChannelSend "1450000000000000000"
        (auditMessage
           {| type := ADD; targetUser := Cast.manager; amount := 50;
              executor := Cast.admin |}
           1700000001) ]
  ∧ channel_posts Cast.logged_world_other_balance
      (handleAdd Config.config LedgerEngine.modify_points Cast.admin_grants_silently
         Cast.logged_world_other_balance).2
    = channel_posts Cast.logged_world
        (handleAdd Config.config LedgerEngine.modify_points Cast.admin_grants
           Cast.logged_world).2.
Proof.
  assert (Hfst1 : (handleAdd Config.config LedgerEngine.modify_points
                     Cast.admin_grants Cast.logged_world).1 = Js.Return tt)
    by (vm_compute; reflexivity).
  assert (Hfst2 : (handleAdd Config.config LedgerEngine.modify_points
                     Cast.admin_grants_silently Cast.logged_world_other_balance).1
                  = Js.Return tt)
    by (vm_compute; reflexivity).
  destruct (audit_log_minimal Config.config ADD
              LedgerEngine.modify_points LedgerEngine.modify_points
              Cast.admin_grants Cast.admin_grants_silently
              Cast.logged_world Cast.logged_world_other_balance
              (handleAdd Config.config LedgerEngine.modify_points Cast.admin_grants
                 Cast.logged_world).2
              (handleAdd Config.config LedgerEngine.modify_points
                 Cast.admin_grants_silently Cast.logged_world_other_balance).2)
    as (Hposts & _ & Hsame).
  - rewrite <- Hfst1. apply surjective_pairing.
  - vm_compute. discriminate.
  - rewrite <- Hfst2. apply surjective_pairing.
  - vm_compute. discriminate.
  - reflexivity.
  - reflexivity.
  - reflexivity.
  - reflexivity.
  - reflexivity.
  - reflexivity.
  - split; [|exact Hsame].
    rewrite Hposts. vm_compute. reflexivity.
Defined.

End AuditClaims.

(* ===================================================================== *)
(** * More on the cooldown module: the clean-ups *)
(* ===================================================================== *)

Section CooldownCareFacts.
Import Cooldown CooldownInv CooldownCare.

Lemma due_for_cons now t ts u c :
  due_for now (t :: ts) u c =
  bool_decide (fireAt t <= now ∧ timerUser t = u ∧ timerCommand t = c)
  || due_for now ts u c.
Proof. reflexivity. Qed.

Lemma due_for_app now ts1 ts2 u c :
  due_for now (ts1 ++ ts2) u c = due_for now ts1 u c || due_for now ts2 u c.
Proof. unfold due_for. apply existsb_app. Qed.

Lemma due_for_false now ts u c :
  (∀ t, t ∈ ts → ¬ (timerUser t = u ∧ timerCommand t = c)) →
  due_for now ts u c = false.
Proof.
  induction ts as [|t ts IH]; intros H; [reflexivity|].
  rewrite due_for_cons, IH.
  - rewrite bool_decide_eq_false_2; [reflexivity|].
    intros (_ & Hu & Hc). apply (H t); [left|auto].
  - intros x Hx. apply H. right. exact Hx.
Qed.

(** What the event loop leaves: the entries whose clean-up was due are
    gone, the others are as they were, and the timers not yet due remain. *)
Lemma runTimers_spec now ts :
  ∀ cds,
    (∀ u c, expiration (runTimers now ts cds).1 u c =
            if due_for now ts u c then None else expiration cds u c)
    ∧ (runTimers now ts cds).2 = filter (λ t, ¬ fireAt t <= now) ts.
Proof.
  induction ts as [|t ts IH]; intros cds.
  - split; [intros; reflexivity|reflexivity].
  - simpl runTimers. destruct (Z.leb_spec (fireAt t) now) as [Hdue|Hnot].
    + destruct (IH (cleanup (timerUser t) (timerCommand t) cds)) as [He Ht].
      split.
      * intros u c. rewrite He, due_for_cons, expiration_cleanup.
        destruct (due_for now ts u c); [rewrite orb_true_r; reflexivity|].
        rewrite orb_false_r.
        destruct (decide (u = timerUser t ∧ c = timerCommand t)) as [[-> ->]|Hne].
        -- rewrite bool_decide_eq_true_2 by auto. reflexivity.
        -- rewrite bool_decide_eq_false_2; [reflexivity|].
           intros (_ & Hu & Hc). apply Hne. auto.
      * rewrite Ht. rewrite filter_cons_False by lia. reflexivity.
    + destruct (IH cds) as [He Ht].
      destruct (runTimers now ts cds) as [cds' ts'] eqn:Hrun. cbn [fst snd] in *.
      split.
      * intros u c. rewrite He, due_for_cons.
        rewrite bool_decide_eq_false_2 by lia. reflexivity.
      * rewrite Ht. rewrite filter_cons_True by lia. reflexivity.
Qed.

Lemma expiration_tick now st u c :
  expiration (cooldowns (tick now st)) u c =
  if due_for now (timers st) u c then None
  else expiration (cooldowns st) u c.
Proof.
  unfold tick.
  pose proof (proj1 (runTimers_spec now (timers st) (cooldowns st)) u c) as H.
  destruct (runTimers now (timers st) (cooldowns st)). exact H.
Qed.

Lemma timers_tick now st :
  timers (tick now st) = filter (λ t, ¬ fireAt t <= now) (timers st).
Proof.
  unfold tick.
  pose proof (proj2 (runTimers_spec now (timers st) (cooldowns st))) as H.
  destruct (runTimers now (timers st) (cooldowns st)). exact H.
Qed.

Lemma due_for_true now ts u c :
  due_for now ts u c = true ↔
  ∃ t, t ∈ ts ∧ fireAt t <= now ∧ timerUser t = u ∧ timerCommand t = c.
Proof.
  unfold due_for. rewrite existsb_exists. split.
  - intros (t & Hin & Hb). apply bool_decide_eq_true_1 in Hb.
    exists t. rewrite list_elem_of_In. tauto.
  - intros (t & Hin & H). exists t. rewrite <- list_elem_of_In.
    split; [exact Hin|]. apply bool_decide_eq_true_2. exact H.
Qed.

(** ** The two invariants *)

Lemma tidy_cleanup cds u c : tidy cds → tidy (cleanup u c cds).
Proof.
  intros Ht u' m. unfold cleanup.
  destruct (cds !! u) as [mu|] eqn:Hu; [|apply Ht].
  simpl. destruct (decide (size (delete c mu) = 0%nat)) as [Hz|Hnz].
  - destruct (decide (u' = u)) as [->|Hne].
    + rewrite lookup_delete_eq. discriminate.
    + rewrite lookup_delete_ne by auto. apply Ht.
  - destruct (decide (u' = u)) as [->|Hne].
    + rewrite lookup_insert_eq. intros [= <-] Hempty.
      apply Hnz. rewrite Hempty. apply map_size_empty.
    + rewrite lookup_insert_ne by auto. apply Ht.
Qed.

Lemma tidy_runTimers now ts : ∀ cds, tidy cds → tidy (runTimers now ts cds).1.
Proof.
  induction ts as [|t ts IH]; intros cds Ht; simpl; [exact Ht|].
  destruct (fireAt t <=? now).
  - apply IH, tidy_cleanup, Ht.
  - specialize (IH cds Ht). destruct (runTimers now ts cds). exact IH.
Qed.

Lemma tidy_setCooldown st now u c :
  tidy (cooldowns st) → tidy (cooldowns (setCooldown st now u c)).
Proof.
  intros Ht u' m. unfold setCooldown. simpl.
  destruct (decide (u' = u)) as [->|Hne].
  - rewrite lookup_insert_eq. intros [= <-]. apply insert_non_empty.
  - rewrite lookup_insert_ne by auto.
    destruct (cooldowns st !! u); [apply Ht|].
    rewrite lookup_insert_ne by auto. apply Ht.
Qed.

Lemma tidy_tick now st : tidy (cooldowns st) → tidy (cooldowns (tick now st)).
Proof.
  intros Ht. unfold tick.
  pose proof (tidy_runTimers now (timers st) (cooldowns st) Ht) as H.
  destruct (runTimers now (timers st) (cooldowns st)). exact H.
Qed.

Lemma backed_tick now st : backed st → backed (tick now st).
Proof.
  intros Hb u c e. rewrite expiration_tick.
  destruct (due_for now (timers st) u c) eqn:Hdue; [discriminate|].
  intros He. destruct (Hb u c e He) as (t & Hin & Hu & Hc & Hf).
  exists t. split; [|auto]. rewrite timers_tick.
  apply list_elem_of_filter. split; [|exact Hin].
  intros Hle.
  assert (due_for now (timers st) u c = true) as Hcontra.
  { apply due_for_true. exists t. auto. }
  congruence.
Qed.

Lemma Reachable_tidy now st : Reachable now st → tidy (cooldowns st).
Proof.
  induction 1 as [now|now st u c _ IH|now now' st _ IH Hle|now st _ IH|now st _ IH].
  - intros u m. simpl. rewrite lookup_empty. discriminate.
  - apply tidy_setCooldown, IH.
  - exact IH.
  - apply tidy_tick, IH.
  - intros u m. simpl. rewrite lookup_empty. discriminate.
Qed.

Lemma Reachable_backed now st : Reachable now st → backed st.
Proof.
  induction 1 as [now|now st u c _ IH|now now' st _ IH Hle|now st _ IH|now st _ IH].
  - intros u c e. unfold expiration. simpl. rewrite lookup_empty. discriminate.
  - intros u' c' e. rewrite expiration_setCooldown.
    case_decide as Hpair.
    + destruct Hpair as [-> ->]. intros [= <-].
      exists (mkTimer (now + COOLDOWN_DURATION) u c). simpl.
      split; [|auto]. apply elem_of_app. right. apply list_elem_of_singleton. reflexivity.
    + intros He. destruct (IH u' c' e He) as (t & Hin & Ht).
      exists t. split; [|exact Ht]. simpl. apply elem_of_app. left. exact Hin.
  - exact IH.
  - apply backed_tick, IH.
  - intros u c e. unfold expiration. simpl. rewrite lookup_empty. discriminate.
Qed.

End CooldownCareFacts.

Section CooldownCareTheorems.
Import Cooldown CooldownInv CooldownCare.

(** X1.  A cooldown set at time [t] while no clean-up for the same pair is
    pending holds for the full 3000 ms, whatever timers run meanwhile: until
    then [checkCooldown] is the positive ceiling of the remaining seconds;
    from [t + 3000] on, once the timers have run, the entry is gone and
    [checkCooldown] is 0. *)
Theorem cooldown_holds_for_the_full_window
    (st : State) (t t' : Z) (userId commandName : string) :
  no_pending st userId commandName →
  let st' := tick t' (setCooldown st t userId commandName) in
  if decide (t' < t + 3000) then
    checkCooldown (cooldowns st') t' userId commandName
      = Js.ceil_div (t + 3000 - t') 1000
    ∧ 0 < checkCooldown (cooldowns st') t' userId commandName
  else
    expiration (cooldowns st') userId commandName = None
    ∧ checkCooldown (cooldowns st') t' userId commandName = 0.
Proof.
  intros Hfree st'.
  assert (Hexp : expiration (cooldowns st') userId commandName =
                 if decide (t' < t + 3000) then Some (t + 3000) else None).
  { subst st'. rewrite expiration_tick.
    change (timers (setCooldown st t userId commandName))
      with (timers st ++ [mkTimer (t + 3000) userId commandName]).
    rewrite due_for_app, (due_for_false _ _ _ _ Hfree), orb_false_l.
    rewrite due_for_cons.
    change (due_for t' [] userId commandName) with false.
    rewrite orb_false_r.
    change (fireAt (mkTimer (t + 3000) userId commandName)) with (t + 3000).
    change (timerUser (mkTimer (t + 3000) userId commandName)) with userId.
    change (timerCommand (mkTimer (t + 3000) userId commandName)) with commandName.
    case_decide as Hlt.
    - rewrite bool_decide_eq_false_2 by lia.
      rewrite expiration_setCooldown, decide_True by auto. reflexivity.
    - rewrite bool_decide_eq_true_2; [reflexivity|]. repeat split; lia. }
  rewrite checkCooldown_expiration, Hexp.
  case_decide as Hlt.
  - destruct (Z.ltb_spec t' (t + 3000)); [|lia].
    split; [reflexivity|].
    pose proof (ceil_div_bounds (t + 3000 - t') 1000 ltac:(lia)). lia.
  - split; reflexivity.
Qed.

Lemma cooldown_holds_for_the_full_window_witness :
  no_pending initial "937194748618354708" "points_add"
  ∧ 0 < checkCooldown
          (cooldowns (tick 3999 (setCooldown initial 1000
                                   "937194748618354708" "points_add")))
          3999 "937194748618354708" "points_add".
Proof.
  assert (Hfree : no_pending initial "937194748618354708" "points_add").
  { intros t Ht. simpl in Ht. inversion Ht. }
  split; [exact Hfree|].
  pose proof (cooldown_holds_for_the_full_window initial 1000 3999
                "937194748618354708" "points_add" Hfree) as H.
  cbv zeta in H. rewrite decide_True in H by lia. apply H.
Defined.

(** X2.  In a reachable state, after the timers due at [now] have run, no
    entry that has expired is left: every entry still in the map expires
    strictly after [now], so [checkCooldown] at [now] is positive for it. *)
Theorem tick_leaves_no_expired_entry
    (now0 now : Z) (st : State) (userId commandName : string) (e : Z) :
  Reachable now0 st →
  expiration (cooldowns (tick now st)) userId commandName = Some e →
  now < e ∧ 0 < checkCooldown (cooldowns (tick now st)) now userId commandName.
Proof.
  intros Hreach He.
  assert (Hlt : now < e).
  { rewrite expiration_tick in He.
    destruct (due_for now (timers st) userId commandName) eqn:Hdue; [discriminate|].
    destruct (Reachable_backed _ _ Hreach _ _ _ He) as (t & Hin & Hu & Hc & Hf).
    destruct (Z.lt_ge_cases now e) as [|Hge]; [assumption|].
    assert (due_for now (timers st) userId commandName = true) as Hcontra.
    { apply due_for_true. exists t. repeat split; auto. lia. }
    congruence. }
  split; [exact Hlt|].
  rewrite checkCooldown_expiration, He.
  destruct (Z.ltb_spec now e); [|lia].
  pose proof (ceil_div_bounds (e - now) 1000 ltac:(lia)). lia.
Qed.

Lemma tick_leaves_no_expired_entry_witness :
  Reachable 1500 Scenario.one_cooldown
  ∧ expiration (cooldowns (tick 2000 Scenario.one_cooldown))
      "937194748618354708" "points_add" = Some 4000
  ∧ 2000 < 4000.
Proof.
  assert (Hreach : Reachable 1500 Scenario.one_cooldown).
  { apply (Reachable_wait 1000); [|lia].
    apply Reachable_setCooldown, Reachable_initial. }
  assert (He : expiration (cooldowns (tick 2000 Scenario.one_cooldown))
                 "937194748618354708" "points_add" = Some 4000)
    by (vm_compute; reflexivity).
  split; [exact Hreach|]. split; [exact He|].
  exact (proj1 (tick_leaves_no_expired_entry 1500 2000 Scenario.one_cooldown
                  "937194748618354708" "points_add" 4000 Hreach He)).
Defined.

(** X3.  In a reachable state, once every scheduled clean-up is due and the
    timers have run, the cooldown map is empty again and no timer is
    pending: no user entry is left behind. *)
Theorem cooldown_map_empties
    (now0 now : Z) (st : State) :
  Reachable now0 st →
  Forall (λ t, fireAt t <= now) (timers st) →
  cooldowns (tick now st) = ∅ ∧ timers (tick now st) = [].
Proof.
  intros Hreach Hall.
  assert (Htimers : timers (tick now st) = []).
  { rewrite timers_tick. induction Hall as [|t ts Ht _ IH]; [reflexivity|].
    rewrite filter_cons_False by (intros H; apply H, Ht). exact IH. }
  split; [|exact Htimers].
  apply map_empty. intros u.
  destruct (cooldowns (tick now st) !! u) as [m|] eqn:Hu; [|reflexivity].
  exfalso.
  assert (Htidy : tidy (cooldowns (tick now st))).
  { apply tidy_tick, (Reachable_tidy now0), Hreach. }
  destruct (map_choose m (Htidy u m Hu)) as (c & e & Hc).
  assert (He : expiration (cooldowns (tick now st)) u c = Some e).
  { unfold expiration. rewrite Hu. exact Hc. }
  destruct (backed_tick now st (Reachable_backed now0 st Hreach) u c e He)
    as (t & Hin & _).
  rewrite Htimers in Hin. inversion Hin.
Qed.

Lemma cooldown_map_empties_witness :
  Reachable 1500 Scenario.one_cooldown
  ∧ Forall (λ t, fireAt t <= 4000) (timers Scenario.one_cooldown)
  ∧ cooldowns (tick 4000 Scenario.one_cooldown) = ∅.
Proof.
  assert (Hreach : Reachable 1500 Scenario.one_cooldown).
  { apply (Reachable_wait 1000); [|lia].
    apply Reachable_setCooldown, Reachable_initial. }
  assert (Hall : Forall (λ t, fireAt t <= 4000) (timers Scenario.one_cooldown)).
  { repeat constructor. simpl. unfold COOLDOWN_DURATION. lia. }
  split; [exact Hreach|]. split; [exact Hall|].
  exact (proj1 (cooldown_map_empties 1500 4000 Scenario.one_cooldown Hreach Hall)).
Defined.

(** X4.  After [clearAllCooldowns] every check answers 0, at every time and
    for every pair, and it stays so when the clean-ups that were pending
    run afterwards. *)
Theorem clearAllCooldowns_lifts_every_cooldown
    (st : State) (now t : Z) (userId commandName : string) :
  checkCooldown (cooldowns (clearAllCooldowns st)) t userId commandName = 0
  ∧ checkCooldown (cooldowns (tick now (clearAllCooldowns st))) t userId commandName = 0.
Proof.
  rewrite !checkCooldown_expiration, expiration_tick.
  assert (Hnone : expiration (cooldowns (clearAllCooldowns st)) userId commandName = None).
  { unfold expiration. simpl. rewrite lookup_empty. reflexivity. }
  rewrite Hnone. destruct (due_for _ _ _ _); split; reflexivity.
Qed.

End CooldownCareTheorems.

(* ===================================================================== *)
(** * More on the permissions, the logger, the service layer, the statement *)
(* ===================================================================== *)

Section PermissionTheorems.
Import Config.
Variable cfg : Config.t.

Lemma includes_true (l : list string) (x : string) : includes l x = true ↔ x ∈ l.
Proof. unfold includes. apply bool_decide_eq_true. Qed.

(** X5.  [canManagePoints] grants exactly these: a super admin, for any
    target, themselves included and whatever [allowSelfAdd] says; a listed
    point manager, for any other user, and for themselves only when
    [allowSelfAdd] is on.  Nobody else. *)
Theorem canManagePoints_iff (userId targetUserId : string) :
  canManagePoints cfg userId targetUserId = true ↔
  userId ∈ superAdmins cfg
  ∨ (userId ∈ pointManagers cfg
     ∧ (userId ≠ targetUserId ∨ allowSelfAdd (points cfg) = true)).
Proof.
  unfold canManagePoints, isPointManager, isSuperAdmin.
  destruct (includes (superAdmins cfg) userId) eqn:Hsa.
  - apply includes_true in Hsa. tauto.
  - assert (Hnsa : userId ∉ superAdmins cfg).
    { intros H. apply includes_true in H. congruence. }
    rewrite orb_false_r.
    destruct (includes (pointManagers cfg) userId) eqn:Hpm.
    + apply includes_true in Hpm.
      destruct (decide (userId = targetUserId)) as [Heq|Hne].
      * split; [intros H; right; auto|].
        intros [H|[_ [H|H]]]; [contradiction|contradiction|exact H].
      * split; [intros _; right; auto|reflexivity].
    + assert (Hnpm : userId ∉ pointManagers cfg).
      { intros H. apply includes_true in H. congruence. }
      split; [discriminate|]. intros [H|[H _]]; contradiction.
Qed.

(** X6.  [canViewHistory] grants a user their own history, and any history
    to listed point managers and super admins, and to nobody else; whoever
    may manage a target's points may also view that target's history. *)
Theorem canViewHistory_iff (userId targetUserId : string) :
  (canViewHistory cfg userId targetUserId = true ↔
   userId = targetUserId ∨ userId ∈ pointManagers cfg ∨ userId ∈ superAdmins cfg)
  ∧ (canManagePoints cfg userId targetUserId = true →
     canViewHistory cfg userId targetUserId = true).
Proof.
  assert (Hview : canViewHistory cfg userId targetUserId = true ↔
                  userId = targetUserId ∨ userId ∈ pointManagers cfg
                  ∨ userId ∈ superAdmins cfg).
  { unfold canViewHistory, isPointManager, isSuperAdmin.
    destruct (decide (userId = targetUserId)) as [Heq|Hne]; [tauto|].
    rewrite !orb_true_iff, !includes_true. tauto. }
  split; [exact Hview|].
  intros Hmanage. apply Hview. apply canManagePoints_iff in Hmanage. tauto.
Qed.

End PermissionTheorems.

Section PermissionWitnesses.
Import Config.

Lemma canViewHistory_iff_witness :
  canManagePoints config "1232261529752178719" "42" = true
  ∧ canViewHistory config "1232261529752178719" "42" = true.
Proof.
  split; [reflexivity|].
  exact (proj2 (canViewHistory_iff config "1232261529752178719" "42") eq_refl).
Defined.

End PermissionWitnesses.

Section LoggerTheorems.
Import Supabase Runtime Logger Admission.

(** X7.  [sendAuditLog] never throws and touches neither the tables, the
    request log, the cooldowns nor the clock.  It posts nothing, or exactly
    one message; it posts only when [LOG_CHANNEL_ID] is set and resolves to
    a text channel, and then to that channel. *)
Theorem sendAuditLog_is_harmless (data : AuditData) (w : World) :
  ∃ w',
    sendAuditLog data w = (Js.Return tt, w')
    ∧ database w' = database w
    ∧ requests w' = requests w
    ∧ cooldown w' = cooldown w
    ∧ clock w' = clock w
    ∧ (outputs w' = outputs w
       ∨ ∃ logChannelId,
           LOG_CHANNEL_ID w = Some logChannelId
           ∧ logChannelId ≠ ""
           ∧ channels w logChannelId = FetchResolves (Some (mkChannel true))
           ∧ outputs w' =
             outputs w ++
             [ChannelSend logChannelId (auditMessage data (clock w / 1000))]).
Proof.
  unfold sendAuditLog.
  destruct (LOG_CHANNEL_ID w) as [logChannelId|] eqn:Hid.
  - destruct logChannelId as [|a s] eqn:Hs.
    + eexists. split; [reflexivity|]. auto 10.
    + rewrite <- Hs in *. assert (Hne : logChannelId ≠ "") by (subst; discriminate).
      replace (negb (Js.truthy (Some logChannelId))) with false
        by (subst; reflexivity).
      change (default "" (Some logChannelId)) with logChannelId.
      unfold try_catch, bind, fetch_channel.
      destruct (channels w logChannelId) as [|[[[|]]|]] eqn:Hch;
        (eexists; split; [reflexivity|]); simpl;
        repeat (split; [reflexivity|]); eauto 10.
  - eexists. split; [reflexivity|]. auto 10.
Qed.

End LoggerTheorems.

Section ServiceTheorems.
Import Supabase Runtime DatabaseService Ledger.
Variable rpc : Rpc.

Lemma addPoints_run (w : World) (t a : string) (amount : Z) (reason : option string) :
  1 <= amount →
  addPoints rpc t a amount reason w =
  (match (rpc (addArgs t a amount reason) (clock w) (database w)).1 with
   | Data data =>
       Js.Return {| before := data_before_points data; after := data_after_points data |}
   | Err error =>
       Js.Throw (Js.mkError (or_else (error_message error) "Failed to add points"))
   end,
   with_database (rpc (addArgs t a amount reason) (clock w) (database w)).2
     (with_request (ReqRpcModifyPoints (addArgs t a amount reason)) w)).
Proof.
  intros Hamount.
  unfold addPoints, try_catch, bind, call_rpc, addArgs.
  destruct (Z.leb_spec amount 0); [lia|].
  destruct (rpc _ (clock w) (database w)) as [[d|e] db']; reflexivity.
Qed.

Lemma removePoints_run (w : World) (t a : string) (amount : Z)
    (allowNegative : bool) (reason : option string) :
  1 <= amount →
  removePoints rpc t a amount allowNegative reason w =
  (match (rpc (removeArgs t a amount allowNegative reason) (clock w) (database w)).1 with
   | Data data =>
       Js.Return {| before := data_before_points data; after := data_after_points data |}
   | Err error =>
       Js.Throw (Js.mkError (or_else (error_message error) "Failed to remove points"))
   end,
   with_database (rpc (removeArgs t a amount allowNegative reason) (clock w) (database w)).2
     (with_request (ReqRpcModifyPoints (removeArgs t a amount allowNegative reason)) w)).
Proof.
  intros Hamount.
  unfold removePoints, try_catch, bind, call_rpc, removeArgs.
  destruct (Z.leb_spec amount 0); [lia|].
  destruct (rpc _ (clock w) (database w)) as [[d|e] db']; [reflexivity|].
  cbn [fst snd].
  destruct (error_message e) as [|c s] eqn:Hmsg; [reflexivity|].
  destruct (Js.includes _ _); reflexivity.
Qed.

(** X8.  For an amount of 1 or more, [addPoints] and [removePoints] send one
    request and hand on what the database function answers: its
    [before_points] and [after_points] as [{ before, after }], or an error
    thrown with the database's message unchanged (the fallback text only
    when that message is empty; for [removePoints] the words "Insufficient
    points" make no difference to what is thrown).  The tables afterwards
    are those the function left: the service layer writes nothing itself. *)
Theorem rpc_outcome_is_handed_on
    (w : World) (targetUserId actionByUserId : string) (amount : Z)
    (allowNegative : bool) (reason : option string) :
  1 <= amount →
  let hand_on (fallback : string) (answer : Response ModifyPointsData * Database)
              (args : ModifyPointsArgs) :=
    (match answer.1 with
     | Data data =>
         Js.Return {| before := data_before_points data;
                      after := data_after_points data |}
     | Err error => Js.Throw (Js.mkError (or_else (error_message error) fallback))
     end,
     with_database answer.2 (with_request (ReqRpcModifyPoints args) w)) in
  addPoints rpc targetUserId actionByUserId amount reason w =
    hand_on "Failed to add points"
      (rpc (addArgs targetUserId actionByUserId amount reason) (clock w) (database w))
      (addArgs targetUserId actionByUserId amount reason)
  ∧ removePoints rpc targetUserId actionByUserId amount allowNegative reason w =
    hand_on "Failed to remove points"
      (rpc (removeArgs targetUserId actionByUserId amount allowNegative reason)
         (clock w) (database w))
      (removeArgs targetUserId actionByUserId amount allowNegative reason).
Proof.
  intros Hamount hand_on. subst hand_on. cbv beta.
  split; [apply addPoints_run|apply removePoints_run]; exact Hamount.
Qed.

End ServiceTheorems.

Section ServiceWitnesses.
Import Supabase Runtime DatabaseService Ledger.

Lemma rpc_outcome_is_handed_on_witness :
  1 <= 15
  ∧ (addPoints LedgerEngine.modify_points "1232261529752178719" "937194748618354708"
       15 None (Scenario.world_of Scenario.ten_points)).1
    = Js.Return {| before := 10; after := 25 |}.
Proof.
  split; [lia|].
  rewrite (proj1 (rpc_outcome_is_handed_on LedgerEngine.modify_points
                    (Scenario.world_of Scenario.ten_points)
                    "1232261529752178719" "937194748618354708" 15 false None
                    ltac:(lia))).
  reflexivity.
Defined.

End ServiceWitnesses.

Section StatementTheorems.
Import Supabase Runtime HistoryGenerator.



End StatementTheorems.

Section ButtonTheorems.
Import UpdateCommand.

(** One button: the identifier is a literal, so the branch of [collect] is
    known; what is left is arithmetic on the page. *)
Ltac button_case :=
  cbn [disabled customId]; unfold collect;
  repeat match goal with
         | |- context [bool_decide (?a = ?b :> string)] =>
             let r := eval vm_compute in (bool_decide (a = b)) in
             change (bool_decide (a = b)) with r
         end;
  cbv beta iota;
  rewrite ?bool_decide_eq_true; split; intros; try reflexivity; lia.

(** X10.  On a page between 1 and the total, every click leaves the page
    between 1 and the total, and the buttons that [generateButtons] disables
    are exactly those whose click would not change the page. *)
Theorem buttons_match_navigation (currentPage totalPages : Z) :
  1 <= currentPage <= totalPages →
  (∀ clicked, 1 <= collect clicked currentPage totalPages <= totalPages)
  ∧ Forall (λ button,
              disabled button = true ↔
              collect (customId button) currentPage totalPages = currentPage)
      (generateButtons currentPage totalPages).
Proof.
  intros Hrange. split.
  - intros clicked. unfold collect. repeat case_bool_decide; lia.
  - unfold generateButtons.
    do 5 (constructor; [button_case|]). constructor.
Qed.

Lemma buttons_match_navigation_witness :
  1 <= 2 <= 3
  ∧ 1 <= collect "update_next" 2 3 <= 3.
Proof.
  split; [lia|].
  exact (proj1 (buttons_match_navigation 2 3 ltac:(lia)) "update_next").
Defined.

End ButtonTheorems.

(* ===================================================================== *)
(** * Runs of the handlers, case by case *)
(* ===================================================================== *)

Section HandlerRuns.
Import Supabase Runtime DatabaseService Logger PointsCommand Admission Ledger Flow.
Local Open Scope async_scope.

Variable cfg : Config.t.
Variable rpc : Rpc.

(** A call that one of the three checks stops: one ephemeral reply. *)
Lemma handle_not_admitted (kind : ActionType) (i : Interaction) (w : World) :
  admitted cfg kind i w = false →
  ∃ text, handle kind cfg rpc i w = (Js.Return tt, with_output (Reply text true) w).
Proof.
  unfold admitted. intros H.
  destruct kind; unfold handle, handleAdd, handleRemove, commandName in *; cbv zeta.
  - destruct (Config.canManagePoints _ _ _); cbn [negb andb] in *;
      [|eexists; reflexivity].
    destruct (bool_decide _ && negb _); cbn [negb andb] in *;
      [eexists; reflexivity|].
    apply negb_false_iff in H.
    unfold bind at 1. unfold check_cooldown at 1. cbv beta iota. rewrite H.
    eexists. reflexivity.
  - destruct (Config.canManagePoints _ _ _); cbn [negb andb] in *;
      [|eexists; reflexivity].
    destruct (bool_decide _ && negb _); cbn [negb andb] in *;
      [eexists; reflexivity|].
    apply negb_false_iff in H.
    unfold bind at 1. unfold check_cooldown at 1. cbv beta iota. rewrite H.
    eexists. reflexivity.
Qed.

(** An admitted call with an amount below 1: the service layer throws
    before any request. *)
Lemma handle_invalid_amount (kind : ActionType) (i : Interaction) (w : World) :
  admitted cfg kind i w = true →
  option_amount i <= 0 →
  handle kind cfg rpc i w =
  (Js.Throw (Js.mkError "Amount must be positive"), started kind w).
Proof.
  unfold admitted. intros H Hamount.
  apply andb_true_iff in H as [H Hcd]. apply andb_true_iff in H as [Hperm Hself].
  apply negb_true_iff in Hself, Hcd.
  destruct kind; unfold handle, handleAdd, handleRemove, commandName in *;
    cbv zeta; rewrite Hperm, Hself; cbn [negb];
    unfold bind at 1; unfold check_cooldown at 1; rewrite Hcd;
    unfold bind at 1; unfold emit at 1;
    unfold bind at 1; unfold emit at 1;
    cbv zeta; unfold try_catch at 1;
    unfold bind at 1; unfold sleep at 1;
    unfold bind at 1; unfold addPoints, removePoints;
    destruct (Z.leb_spec (option_amount i) 0); try lia; reflexivity.
Qed.

(** An admitted call with a valid amount that the database refuses. *)
Lemma handle_rpc_error (kind : ActionType) (i : Interaction) (w : World)
    (error : PostgrestError) (db' : Database) :
  admitted cfg kind i w = true →
  1 <= option_amount i →
  rpc (request_of cfg kind i) (clock w + 1200) (database w) = (Err error, db') →
  handle kind cfg rpc i w =
  (Js.Throw (handler_error kind i (or_else (error_message error) (fallback kind))),
   with_database db'
     (with_request (ReqRpcModifyPoints (request_of cfg kind i)) (started kind w))).
Proof.
  unfold admitted. intros H Hamount Hrpc.
  apply andb_true_iff in H as [H Hcd]. apply andb_true_iff in H as [Hperm Hself].
  apply negb_true_iff in Hself, Hcd.
  destruct kind; unfold handle, handleAdd, handleRemove, commandName in *;
    cbv zeta; rewrite Hperm, Hself; cbn [negb];
    unfold bind at 1; unfold check_cooldown at 1; rewrite Hcd;
    unfold bind at 1; unfold emit at 1;
    unfold bind at 1; unfold emit at 1;
    unfold try_catch at 1;
    unfold bind at 1; unfold sleep at 1;
    unfold bind at 1;
    unfold request_of in Hrpc.
  - rewrite addPoints_run by exact Hamount.
    cbn [clock database with_cooldown with_clock with_output].
    rewrite Hrpc. reflexivity.
  - rewrite removePoints_run by exact Hamount.
    cbn [clock database with_cooldown with_clock with_output].
    rewrite Hrpc. cbn [fst snd]. unfold handler_error, fallback.
    cbn [Js.message].
    destruct (negb _ && _); reflexivity.
Qed.

(** An admitted call that the database carries out. *)
Lemma handle_rpc_data (kind : ActionType) (i : Interaction) (w : World)
    (data : ModifyPointsData) (db' : Database) :
  admitted cfg kind i w = true →
  1 <= option_amount i →
  rpc (request_of cfg kind i) (clock w + 1200) (database w) = (Data data, db') →
  ∃ reply,
    handle kind cfg rpc i w =
    sendAuditLog
      {| type := kind; targetUser := option_user i;
         amount := option_amount i; executor := user i |}
      (with_output (EditReply reply)
         (with_cooldown
            (Cooldown.setCooldown (Cooldown.tick (clock w + 1200) (cooldown w))
               (clock w + 1200) (user_id (user i)) (commandName kind))
            (with_database db'
               (with_request (ReqRpcModifyPoints (request_of cfg kind i))
                  (started kind w))))).
Proof.
  unfold admitted. intros H Hamount Hrpc.
  apply andb_true_iff in H as [H Hcd]. apply andb_true_iff in H as [Hperm Hself].
  apply negb_true_iff in Hself, Hcd.
  destruct kind; unfold handle, handleAdd, handleRemove, commandName in *;
    cbv zeta; rewrite Hperm, Hself; cbn [negb];
    unfold bind at 1; unfold check_cooldown at 1; rewrite Hcd;
    unfold bind at 1; unfold emit at 1;
    unfold bind at 1; unfold emit at 1;
    cbv zeta; unfold try_catch at 1;
    unfold bind at 1; unfold sleep at 1;
    unfold bind at 1; unfold addPoints, removePoints;
    (destruct (Z.leb_spec (option_amount i) 0); [lia|]);
    unfold try_catch at 1, bind at 1, call_rpc;
    unfold request_of, addArgs, removeArgs in Hrpc;
    cbn [clock database with_cooldown with_clock with_output];
    rewrite Hrpc;
    unfold ret at 1;
    unfold bind at 1; unfold set_cooldown at 1;
    unfold bind at 1; unfold emit at 1;
    match goal with
    | |- context [sendAuditLog ?d ?w1] =>
        destruct (sendAuditLog_run d w1) as (w2 & Hrun & _); rewrite Hrun
    end;
    eexists; symmetry; exact Hrun.
Qed.

End HandlerRuns.

(* ===================================================================== *)
(** * More on the handlers and the dispatcher *)
(* ===================================================================== *)

Section HandlerFrames.
Import Supabase Runtime DatabaseService Logger PointsCommand PointsEntry.
Import Admission Ledger Flow.

(** [sendAuditLog] returns and leaves all but what has been sent. *)
Lemma sendAuditLog_frame (data : AuditData) (w : World) :
  ∃ w', sendAuditLog data w = (Js.Return tt, w')
        ∧ outputs w' = outputs w ++ audit_post w data
        ∧ database w' = database w
        ∧ requests w' = requests w
        ∧ cooldown w' = cooldown w
        ∧ clock w' = clock w.
Proof.
  unfold sendAuditLog, audit_post.
  destruct (LOG_CHANNEL_ID w) as [logChannelId|] eqn:Hid.
  - destruct (Js.truthy (Some logChannelId)) eqn:Htruthy; cbn [negb].
    + change (default "" (Some logChannelId)) with logChannelId.
      unfold try_catch, bind, fetch_channel.
      destruct (channels w logChannelId) as [|[[[|]]|]] eqn:Hch; simpl;
        eexists; (split; [reflexivity|]); simpl;
        rewrite ?app_nil_r; auto 10.
    + eexists. split; [reflexivity|]. rewrite app_nil_r. auto 10.
  - eexists. split; [reflexivity|]. rewrite app_nil_r. auto 10.
Qed.

Lemma handleView_run (i : ViewInteraction) (w : World) :
  let targetUser := default (view_user i) (view_option_user i) in
  ∃ loading,
    handleView i w =
    (Js.Return tt,
     with_output
       (EditReply
          (Js.join HistoryGenerator.LF
             [ "╔══════════════╗";
               "║  <:user:1450781532473000006> **STAFF PROFILE**   ║";
               "╚══════════════╝";
               "";
               "<:user:1450781532473000006> **User:** " +:+ mention targetUser;
               "<a:points:1450781567663210506> **Points:** **" +:+
               Js.String_ (balance (database w) (user_id targetUser)) +:+ "**";
               "";
               "-# <a:time:1450781529700565073> **Retrieved:** <t:" +:+
               Js.String_ ((clock w + 1000) / 1000) +:+ ":F>";
               "────────────────────────────" ]))
       (with_cooldown (Cooldown.tick (clock w + 1000) (cooldown w))
          (with_clock (clock w + 1000)
             (with_request (ReqSelectPoints (user_id targetUser))
                (with_output (EditReply loading) (with_output DeferReply w)))))).
Proof.
  intros targetUser. eexists. unfold handleView.
  unfold bind at 1. unfold emit at 1.
  unfold bind at 1. unfold emit at 1.
  unfold bind at 1. rewrite getUserPoints_balance.
  reflexivity.
Qed.

End HandlerFrames.

Section HandlerTheorems.
Import Supabase Runtime DatabaseService Logger PointsCommand PointsEntry.
Import Admission Ledger Flow.

Variable cfg : Config.t.

Lemma handle_requests (rpc : Rpc) (kind : ActionType) (i : Interaction) (w : World) :
  requests (handle kind cfg rpc i w).2 =
  requests w ++
  (if admitted cfg kind i w && (0 <? option_amount i)
   then [ReqRpcModifyPoints (request_of cfg kind i)]
   else []).
Proof.
  destruct (admitted cfg kind i w) eqn:Hadm; cbn [andb].
  - destruct (Z.ltb_spec 0 (option_amount i)) as [Hpos|Hnonpos].
    + destruct (rpc (request_of cfg kind i) (clock w + 1200) (database w))
        as [[data|error] db'] eqn:Hrpc.
      * destruct (handle_rpc_data cfg rpc kind i w data db' Hadm ltac:(lia) Hrpc)
          as (reply & ->).
        match goal with
        | |- context [sendAuditLog ?d ?w1] =>
            destruct (sendAuditLog_frame d w1) as (w2 & -> & _ & _ & Hreq & _)
        end.
        cbn [snd]. rewrite Hreq. reflexivity.
      * rewrite (handle_rpc_error cfg rpc kind i w error db' Hadm ltac:(lia) Hrpc).
        reflexivity.
    + rewrite (handle_invalid_amount cfg rpc kind i w Hadm Hnonpos).
      symmetry. apply app_nil_r.
  - destruct (handle_not_admitted cfg rpc kind i w Hadm) as (text & ->).
    symmetry. apply app_nil_r.
Qed.

(** X11.  A run of [handleAdd] or [handleRemove] sends at most one request
    to the store, and sends it exactly when the executor may manage the
    target, is not stopped by the self-action rule, is off cooldown for
    that command, and the amount is 1 or more.  The request is
    [modify_points] for the target, by the executor, of that amount, with
    the reason ([null] for an empty one); ADD passes [p_allow_negative]
    false and REMOVE passes [config.points.allowNegativeBalance]. *)
Theorem handlers_send_only_admitted_requests
    (rpc : Rpc) (kind : ActionType) (i : Interaction) (w : World) :
  requests (handle kind cfg rpc i w).2 =
  requests w ++
  (if Config.canManagePoints cfg (user_id (user i)) (user_id (option_user i))
      && negb (bool_decide (user_id (user i) = user_id (option_user i))
               && negb (Config.allowSelfAdd (Config.points cfg)))
      && negb (0 <? Cooldown.checkCooldown (Cooldown.cooldowns (cooldown w)) (clock w)
                      (user_id (user i)) (commandName kind))
      && (0 <? option_amount i)
   then [ReqRpcModifyPoints
           {| p_target_user_id := user_id (option_user i);
              p_action_by_user_id := user_id (user i);
              p_action_type := kind;
              p_amount := option_amount i;
              p_allow_negative :=
                match kind with
                | ADD => false
                | REMOVE => Config.allowNegativeBalance (Config.points cfg)
                end;
              p_reason := Js.or_null (option_reason i) |}]
   else []).
Proof.
  rewrite handle_requests. unfold admitted, request_of, addArgs, removeArgs.
  destruct kind; reflexivity.
Qed.

Lemma handle_throw_cases (rpc : Rpc) (kind : ActionType) (i : Interaction)
    (w w' : World) (e : Js.Error) :
  handle kind cfg rpc i w = (Js.Throw e, w') →
  (w' = started kind w
   ∨ ∃ db', w' = with_database db'
                   (with_request (ReqRpcModifyPoints (request_of cfg kind i))
                      (started kind w))).
Proof.
  intros Hrun.
  destruct (admitted cfg kind i w) eqn:Hadm.
  - destruct (Z.ltb_spec 0 (option_amount i)) as [Hpos|Hnonpos].
    + destruct (rpc (request_of cfg kind i) (clock w + 1200) (database w))
        as [[data|error] db'] eqn:Hrpc.
      * destruct (handle_rpc_data cfg rpc kind i w data db' Hadm ltac:(lia) Hrpc)
          as (reply & Heq).
        rewrite Heq in Hrun.
        match type of Hrun with
        | context [sendAuditLog ?d ?w1] =>
            destruct (sendAuditLog_frame d w1) as (w2 & Hs & _)
        end.
        rewrite Hs in Hrun. discriminate.
      * rewrite (handle_rpc_error cfg rpc kind i w error db' Hadm ltac:(lia) Hrpc)
          in Hrun.
        injection Hrun as _ <-. right. eexists. reflexivity.
    + rewrite (handle_invalid_amount cfg rpc kind i w Hadm Hnonpos) in Hrun.
      injection Hrun as _ <-. left. reflexivity.
  - destruct (handle_not_admitted cfg rpc kind i w Hadm) as (text & Heq).
    rewrite Heq in Hrun. discriminate.
Qed.

Lemma emitted_started (kind : ActionType) (w : World) :
  emitted w (started kind w) = [DeferReply; EditReply (progress_text kind)].
Proof.
  apply emitted_app. simpl. rewrite <- app_assoc. reflexivity.
Qed.


Lemma handle_success_world (rpc : Rpc) (kind : ActionType) (i : Interaction)
    (w w' : World) :
  handle kind cfg rpc i w = (Js.Return tt, w') →
  requests w' ≠ requests w →
  cooldown w' =
    Cooldown.setCooldown (Cooldown.tick (clock w + 1200) (cooldown w))
      (clock w + 1200) (user_id (user i)) (commandName kind)
  ∧ clock w' = clock w + 1200.
Proof.
  intros Hrun Hreq.
  destruct (admitted cfg kind i w) eqn:Hadm.
  - destruct (Z.ltb_spec 0 (option_amount i)) as [Hpos|Hnonpos].
    + destruct (rpc (request_of cfg kind i) (clock w + 1200) (database w))
        as [[data|error] db'] eqn:Hrpc.
      * destruct (handle_rpc_data cfg rpc kind i w data db' Hadm ltac:(lia) Hrpc)
          as (reply & Heq).
        rewrite Heq in Hrun.
        match type of Hrun with
        | context [sendAuditLog ?d ?w1] =>
            destruct (sendAuditLog_frame d w1)
              as (w2 & Hs & _ & _ & _ & Hcd & Hclock)
        end.
        rewrite Hs in Hrun. injection Hrun as <-.
        rewrite Hcd, Hclock. split; reflexivity.
      * rewrite (handle_rpc_error cfg rpc kind i w error db' Hadm ltac:(lia) Hrpc)
          in Hrun.
        discriminate.
    + rewrite (handle_invalid_amount cfg rpc kind i w Hadm Hnonpos) in Hrun.
      discriminate.
  - destruct (handle_not_admitted cfg rpc kind i w Hadm) as (text & Heq).
    rewrite Heq in Hrun. injection Hrun as <-.
    exfalso. apply Hreq. reflexivity.
Qed.

(** X13.  After a run of [handleAdd] or [handleRemove] that reached the
    store and returned, the executor is on cooldown for that command:
    [checkCooldown] answers 3.  While the cooldown state stays as the run
    left it, and for the next 3000 ms, a further call of the same command
    by the same executor, whatever its target and amount, sends no request
    and leaves the tables alone. *)
Theorem success_starts_the_cooldown
    (rpc : Rpc) (kind : ActionType) (i : Interaction) (w w' : World) :
  handle kind cfg rpc i w = (Js.Return tt, w') →
  requests w' ≠ requests w →
  Cooldown.checkCooldown (Cooldown.cooldowns (cooldown w')) (clock w')
    (user_id (user i)) (commandName kind) = 3
  ∧ ∀ (rpc2 : Rpc) (i2 : Interaction) (w2 : World),
      user_id (user i2) = user_id (user i) →
      cooldown w2 = cooldown w' →
      clock w' <= clock w2 < clock w' + 3000 →
      requests (handle kind cfg rpc2 i2 w2).2 = requests w2
      ∧ database (handle kind cfg rpc2 i2 w2).2 = database w2.
Proof.
  intros Hrun Hreq.
  destruct (handle_success_world rpc kind i w w' Hrun Hreq) as [Hcd Hclock].
  assert (Hcheck : ∀ t, clock w' <= t < clock w' + 3000 →
            Cooldown.checkCooldown (Cooldown.cooldowns (cooldown w')) t
              (user_id (user i)) (commandName kind)
            = Js.ceil_div (clock w' + 3000 - t) 1000).
  { intros t Ht. rewrite checkCooldown_expiration, Hcd, expiration_setCooldown.
    rewrite decide_True by auto. unfold Cooldown.COOLDOWN_DURATION.
    rewrite Hclock in *. destruct (Z.ltb_spec t (clock w + 1200 + 3000)); [|lia].
    reflexivity. }
  split.
  - rewrite Hcheck by lia.
    replace (clock w' + 3000 - clock w') with 3000 by lia. reflexivity.
  - intros rpc2 i2 w2 Huser Hsame Hwindow.
    assert (Hadm : admitted cfg kind i2 w2 = false).
    { unfold admitted. rewrite Hsame, Huser, Hcheck by exact Hwindow.
      pose proof (ceil_div_bounds (clock w' + 3000 - clock w2) 1000 ltac:(lia)).
      destruct (Z.ltb_spec 0 (Js.ceil_div (clock w' + 3000 - clock w2) 1000)); [|lia].
      apply andb_false_r. }
    destruct (handle_not_admitted cfg rpc2 kind i2 w2 Hadm) as (text & ->).
    split; reflexivity.
Qed.

End HandlerTheorems.

Section HandlerWitnesses.
Import Supabase Runtime DatabaseService Logger PointsCommand PointsEntry.
Import Admission Ledger Flow.


Lemma success_starts_the_cooldown_witness :
  (handle ADD Config.config LedgerEngine.modify_points
     Cast.admin_grants Cast.logged_world).1 = Js.Return tt
  ∧ Cooldown.checkCooldown
      (Cooldown.cooldowns
         (cooldown (handle ADD Config.config LedgerEngine.modify_points
                      Cast.admin_grants Cast.logged_world).2))
      (clock (handle ADD Config.config LedgerEngine.modify_points
                Cast.admin_grants Cast.logged_world).2)
      "937194748618354708" "points_add" = 3.
Proof.
  assert (Hfst : (handle ADD Config.config LedgerEngine.modify_points
                    Cast.admin_grants Cast.logged_world).1 = Js.Return tt)
    by (vm_compute; reflexivity).
  split; [exact Hfst|].
  refine (proj1 (success_starts_the_cooldown Config.config
                   LedgerEngine.modify_points ADD Cast.admin_grants
                   Cast.logged_world _ _ _)).
  - rewrite <- Hfst. apply surjective_pairing.
  - vm_compute. discriminate.
Defined.

End HandlerWitnesses.

Section DispatchTheorems.
Import Supabase Runtime DatabaseService Logger PointsCommand PointsEntry.
Import Admission Ledger Flow.

Variable cfg : Config.t.
Variable rpc : Rpc.

Lemma acknowledged_emitted (w w' : World) (o : Output) (l : list Output) :
  emitted w w' = o :: l → is_acknowledgement o = true → acknowledged w w' = true.
Proof.
  unfold acknowledged, emitted. intros -> Ho. simpl. rewrite Ho. reflexivity.
Qed.

Lemma handle_throw_acknowledged (kind : ActionType) (i : Interaction)
    (w w' : World) (e : Js.Error) :
  handle kind cfg rpc i w = (Js.Throw e, w') → acknowledged w w' = true.
Proof.
  intros Hrun.
  assert (Hsent : emitted w w' = [DeferReply; EditReply (progress_text kind)]).
  { destruct (handle_throw_cases cfg rpc kind i w w' e Hrun) as [->|(db' & ->)].
    - apply emitted_started.
    - rewrite <- (emitted_started kind w). reflexivity. }
  eapply acknowledged_emitted; [exact Hsent|reflexivity].
Qed.


(** X15.  When an admitted removal of a valid amount is refused by the
    database with a message containing "Insufficient points", [execute]
    returns after showing "Cannot remove N points. User has insufficient
    balance." as the edited reply; one request was sent, the tables are
    those the database left, no cooldown was set and nothing was posted to
    the log channel. *)
Theorem insufficient_balance_is_reported
    (i : Interaction) (w : World) (error : PostgrestError) (db' : Database) :
  admitted cfg REMOVE i w = true →
  1 <= option_amount i →
  rpc (request_of cfg REMOVE i) (clock w + 1200) (database w) = (Err error, db') →
  Js.includes "Insufficient points" (error_message error) = true →
  execute cfg rpc (Remove i) w =
  (Js.Return tt,
   with_output
     (EditReply
        ("<:error:1450781522545086599> **Error:** Cannot remove " +:+
         Js.String_ (option_amount i) +:+ " points. User has insufficient balance."))
     (with_database db'
        (with_request (ReqRpcModifyPoints (request_of cfg REMOVE i))
           (started REMOVE w)))).
Proof.
  intros Hadm Hamount Hrpc Hinc.
  pose proof (handle_rpc_error cfg rpc REMOVE i w error db' Hadm Hamount Hrpc) as Hrun.
  assert (Herr : handler_error REMOVE i (or_else (error_message error) (fallback REMOVE))
                 = Js.mkError ("Cannot remove " +:+ Js.String_ (option_amount i) +:+
                               " points. User has insufficient balance.")).
  { unfold handler_error.
    destruct (error_message error) as [|a s] eqn:Hmsg; [discriminate|].
    cbn [or_else]. rewrite Hinc.
    rewrite bool_decide_eq_false_2 by discriminate. reflexivity. }
  rewrite Herr in Hrun.
  unfold execute, try_catch.
  change (handleRemove cfg rpc i w) with (handle REMOVE cfg rpc i w).
  rewrite Hrun.
  rewrite (handle_throw_acknowledged REMOVE i w _ _ Hrun).
  reflexivity.
Qed.

(** X16.  [handleView] asks no permission: for any user and any target it
    returns, having sent one read request and shown the target's stored
    balance, 0 when there is no record; it changes no table. *)
Theorem handleView_is_read_only (i : ViewInteraction) (w : World) :
  let targetUser := default (view_user i) (view_option_user i) in
  ∃ w' loading,
    handleView i w = (Js.Return tt, w')
    ∧ database w' = database w
    ∧ requests w' = requests w ++ [ReqSelectPoints (user_id targetUser)]
    ∧ emitted w w' =
      [ DeferReply;
        EditReply loading;
        EditReply
          (Js.join HistoryGenerator.LF
             [ "╔══════════════╗";
               "║  <:user:1450781532473000006> **STAFF PROFILE**   ║";
               "╚══════════════╝";
               "";
               "<:user:1450781532473000006> **User:** " +:+ mention targetUser;
               "<a:points:1450781567663210506> **Points:** **" +:+
               Js.String_ (balance (database w) (user_id targetUser)) +:+ "**";
               "";
               "-# <a:time:1450781529700565073> **Retrieved:** <t:" +:+
               Js.String_ ((clock w + 1000) / 1000) +:+ ":F>";
               "────────────────────────────" ]) ].
Proof.
  intros targetUser.
  destruct (handleView_run i w) as (loading & Hrun).
  eexists _, loading. split; [exact Hrun|].
  split; [reflexivity|]. split; [reflexivity|].
  apply emitted_app. simpl. rewrite <- !app_assoc. reflexivity.
Qed.

End DispatchTheorems.

Section DispatchWitnesses.
Import Supabase Runtime DatabaseService Logger PointsCommand PointsEntry.
Import Admission Ledger Flow.

Lemma insufficient_balance_is_reported_witness :
  admitted Config.config REMOVE Cast2.admin_removes_too_much Cast.logged_world = true
  ∧ 1 <= 15
  ∧ (execute Config.config LedgerEngine.modify_points
       (Remove Cast2.admin_removes_too_much) Cast.logged_world).1 = Js.Return tt.
Proof.
  assert (Hadm : admitted Config.config REMOVE Cast2.admin_removes_too_much
                   Cast.logged_world = true) by (vm_compute; reflexivity).
  split; [exact Hadm|]. split; [lia|].
  erewrite (insufficient_balance_is_reported Config.config LedgerEngine.modify_points
              Cast2.admin_removes_too_much Cast.logged_world
              (LedgerEngine.failure LedgerEngine.InsufficientBalance)
              (database Cast.logged_world) Hadm).
  - reflexivity.
  - simpl. lia.
  - vm_compute. reflexivity.
  - vm_compute. reflexivity.
Defined.

End DispatchWitnesses.

(* ===================================================================== *)
(** * The history command *)
(* ===================================================================== *)

Section HistoryCommandTheorems.
Import Supabase Runtime DatabaseService Ledger HistoryCommand.

Variable cfg : Config.t.
Variable dmOpen : bool.

Lemma getPointsHistory_run (userId : string) (w : World) :
  getPointsHistory userId w =
  (Js.Return (merge_sort newest_first (records_of (database w) userId)),
   with_request (ReqSelectHistory userId) w).
Proof. reflexivity. Qed.

(** The run, by cases on the permission, the history and the direct
    message. *)
Lemma execute_run (i : Interaction) (w : World) :
  let executor := user i in
  let targetUser := default executor (option_user i) in
  let history :=
    merge_sort newest_first (records_of (database w) (user_id targetUser)) in
  let w1 := with_request (ReqSelectHistory (user_id targetUser)) w in
  let w2 := (sleep 800 w1).2 in
  execute cfg dmOpen i w =
  if negb (Config.canViewHistory cfg (user_id executor) (user_id targetUser)) then
    (w, [SentReply denied true])
  else
    match history with
    | [] => (w1, [SentDeferReply true; SentEditReply accessing;
                  SentEditReply nothing_found])
    | _ :: _ =>
        if dmOpen then
          (w2, [ SentDeferReply true; SentEditReply accessing;
                 SentEditReply compiling;
                 SentDirect executor
                   ("📜 **Official Points Statement** for **" +:+
                    username targetUser +:+ "**")
                   {| name := "Statement_" +:+ username targetUser +:+ "_" +:+
                              Js.at_ 0 (Js.split "T" (Js.toISOString (clock w + 800))) +:+
                              ".txt";
                      content :=
                        HistoryGenerator.generateHistoryFile (clock w + 800)
                          targetUser history |};
                 SentEditReply statement_sent ])
        else
          (w2, [ SentDeferReply true; SentEditReply accessing;
                 SentEditReply compiling; SentEditReply delivery_failed ])
    end.
Proof.
  intros executor targetUser history w1 w2.
  unfold execute. fold executor. fold targetUser.
  destruct (negb (Config.canViewHistory cfg (user_id executor) (user_id targetUser)));
    [reflexivity|].
  rewrite getPointsHistory_run. fold history. fold w1.
  destruct history as [|record rest]; [reflexivity|].
  fold w2. destruct dmOpen; reflexivity.
Qed.

(** X17.  The statement leaves the bot only as a direct message to the
    executor.  Whenever the history command sends a direct message, the
    executor was allowed to view the target's history, the recipient is the
    executor, and the attached file is the statement of the target's
    records, newest first, named [Statement_<username>_<date>.txt]; at most
    one such message is sent.  Every reply and edit of the reply is one of
    six fixed status texts. *)
Theorem statement_leaves_by_direct_message_only (i : Interaction) (w : World) :
  let executor := user i in
  let targetUser := default executor (option_user i) in
  let history :=
    merge_sort newest_first (records_of (database w) (user_id targetUser)) in
  let sent := (execute cfg dmOpen i w).2 in
  (∀ recipient text file,
      SentDirect recipient text file ∈ sent →
      Config.canViewHistory cfg (user_id executor) (user_id targetUser) = true
      ∧ recipient = executor
      ∧ history ≠ []
      ∧ content file =
        HistoryGenerator.generateHistoryFile (clock w + 800) targetUser history
      ∧ name file =
        "Statement_" +:+ username targetUser +:+ "_" +:+
        Js.at_ 0 (Js.split "T" (Js.toISOString (clock w + 800))) +:+ ".txt")
  ∧ (length (List.filter Cast2.is_direct sent) <= 1)%nat
  ∧ (∀ s text,
      s ∈ sent → Cast2.reply_text s = Some text →
      text ∈ [ denied; accessing; nothing_found; compiling;
               statement_sent; delivery_failed ]).
Proof.
  intros executor targetUser history sent. subst sent.
  rewrite execute_run. fold executor. fold targetUser. fold history.
  destruct (Config.canViewHistory cfg (user_id executor) (user_id targetUser));
    cbn [negb].
  - destruct history as [|record rest] eqn:Hh.
    + split; [|split].
      * intros r t f Hin. cbn [snd] in Hin.
        repeat (apply elem_of_cons in Hin as [Hin|Hin]; [discriminate|]).
        inversion Hin.
      * cbn. lia.
      * intros s text Hin Htext. cbn [snd] in Hin.
        repeat (apply elem_of_cons in Hin as [Hin|Hin];
                [subst s; cbn in Htext; try discriminate;
                 injection Htext as <-; set_solver|]).
        inversion Hin.
    + destruct dmOpen; (split; [|split]).
      * intros r t f Hin. cbn [snd] in Hin.
        repeat (apply elem_of_cons in Hin as [Hin|Hin];
                [try discriminate|]).
        -- injection Hin as -> -> ->. repeat split; try reflexivity. discriminate.
        -- inversion Hin.
      * cbn. lia.
      * intros s text Hin Htext. cbn [snd] in Hin.
        repeat (apply elem_of_cons in Hin as [Hin|Hin];
                [subst s; cbn in Htext; try discriminate;
                 injection Htext as <-; set_solver|]).
        inversion Hin.
      * intros r t f Hin. cbn [snd] in Hin.
        repeat (apply elem_of_cons in Hin as [Hin|Hin]; [discriminate|]).
        inversion Hin.
      * cbn. lia.
      * intros s text Hin Htext. cbn [snd] in Hin.
        repeat (apply elem_of_cons in Hin as [Hin|Hin];
                [subst s; cbn in Htext; try discriminate;
                 injection Htext as <-; set_solver|]).
        inversion Hin.
  - split; [|split].
    + intros r t f Hin. cbn [snd] in Hin.
      repeat (apply elem_of_cons in Hin as [Hin|Hin]; [discriminate|]).
      inversion Hin.
    + cbn. lia.
    + intros s text Hin Htext. cbn [snd] in Hin.
      repeat (apply elem_of_cons in Hin as [Hin|Hin];
              [subst s; cbn in Htext; try discriminate;
               injection Htext as <-; set_solver|]).
      inversion Hin.
Qed.

(** X18.  The history command only reads: it never changes a table.
    Without permission it sends no request at all and answers with the
    denial alone; with permission it sends the one read request, and ends
    on "No points history found" when the target has no record, on
    "Statement Sent" after the one direct message when the executor accepts
    direct messages, and on "Delivery Failed", with no direct message,
    when not. *)
Theorem history_command_outcomes (i : Interaction) (w : World) :
  let executor := user i in
  let targetUser := default executor (option_user i) in
  let w' := (execute cfg dmOpen i w).1 in
  let sent := (execute cfg dmOpen i w).2 in
  database w' = database w
  ∧ if Config.canViewHistory cfg (user_id executor) (user_id targetUser) then
      requests w' = requests w ++ [ReqSelectHistory (user_id targetUser)]
      ∧ match records_of (database w) (user_id targetUser) with
        | [] =>
            last sent = Some (SentEditReply nothing_found)
            ∧ List.filter Cast2.is_direct sent = []
        | _ :: _ =>
            if dmOpen then
              last sent = Some (SentEditReply statement_sent)
              ∧ length (List.filter Cast2.is_direct sent) = 1%nat
            else
              last sent = Some (SentEditReply delivery_failed)
              ∧ List.filter Cast2.is_direct sent = []
        end
    else
      w' = w ∧ sent = [SentReply denied true].
Proof.
  intros executor targetUser w' sent. subst w' sent.
  rewrite execute_run. fold executor. fold targetUser.
  destruct (Config.canViewHistory cfg (user_id executor) (user_id targetUser));
    cbn [negb]; [|split; [reflexivity|split; reflexivity]].
  assert (Hperm : merge_sort newest_first (records_of (database w) (user_id targetUser))
                  ≡ₚ records_of (database w) (user_id targetUser))
    by apply merge_sort_Permutation.
  destruct (records_of (database w) (user_id targetUser)) as [|r0 rs] eqn:Hrec.
  - apply Permutation_nil_r in Hperm. rewrite Hperm.
    repeat split; reflexivity.
  - destruct (merge_sort newest_first (r0 :: rs)) as [|record rest] eqn:Hsorted.
    + symmetry in Hperm. apply Permutation_nil_r in Hperm. discriminate.
    + destruct dmOpen; repeat split; reflexivity.
Qed.

End HistoryCommandTheorems.

Section HistoryCommandWitnesses.
Import Supabase Runtime DatabaseService Ledger HistoryCommand.

Lemma statement_leaves_by_direct_message_only_witness :
  ∃ text file,
    SentDirect Cast.manager text file
      ∈ (execute Config.config true Cast2.manager_asks_own_history
           (Scenario.world_of Scenario.two_records)).2
    ∧ name file = "Statement_manager_1970-01-01.txt".
Proof.
  assert (Hin : ∃ text file,
             SentDirect Cast.manager text file
               ∈ (execute Config.config true Cast2.manager_asks_own_history
                    (Scenario.world_of Scenario.two_records)).2).
  { rewrite execute_run. vm_compute.
    eexists _, _. do 3 right. left. }
  destruct Hin as (text & file & Hin).
  exists text, file. split; [exact Hin|].
  destruct (proj1 (statement_leaves_by_direct_message_only Config.config true
                     Cast2.manager_asks_own_history
                     (Scenario.world_of Scenario.two_records))
              Cast.manager text file Hin) as (_ & _ & _ & _ & Hname).
  rewrite Hname. vm_compute. reflexivity.
Defined.

End HistoryCommandWitnesses.

(* ===================================================================== *)
(** * Across the modules *)
(* ===================================================================== *)

Section AcrossTheorems.
Import Supabase Runtime DatabaseService Ledger Logger PointsCommand.
Import Admission Flow.

(** X19.  The cooldown of a second [setCooldown] for the same user and
    command does not outlive the clean-up scheduled by the first: the entry
    is set to expire 3000 ms after the second call, but once the first
    timer is due and the timers have run, the entry is gone and
    [checkCooldown] answers 0. *)
Theorem earlier_cleanup_ends_later_cooldown
    (st : Cooldown.State) (t1 t2 now : Z) (userId commandName : string) :
  t1 + 3000 <= now →
  let st2 :=
    Cooldown.setCooldown (Cooldown.setCooldown st t1 userId commandName)
      t2 userId commandName in
  Cooldown.expiration (Cooldown.cooldowns st2) userId commandName = Some (t2 + 3000)
  ∧ Cooldown.expiration (Cooldown.cooldowns (Cooldown.tick now st2))
      userId commandName = None
  ∧ Cooldown.checkCooldown (Cooldown.cooldowns (Cooldown.tick now st2)) now
      userId commandName = 0.
Proof.
  intros Hdue st2.
  assert (Hgone : Cooldown.expiration (Cooldown.cooldowns (Cooldown.tick now st2))
                    userId commandName = None).
  { subst st2. rewrite expiration_tick.
    change (Cooldown.timers
              (Cooldown.setCooldown (Cooldown.setCooldown st t1 userId commandName)
                 t2 userId commandName))
      with ((Cooldown.timers st ++ [Cooldown.mkTimer (t1 + 3000) userId commandName])
            ++ [Cooldown.mkTimer (t2 + 3000) userId commandName]).
    rewrite !due_for_app, due_for_cons.
    rewrite (bool_decide_eq_true_2
               (Cooldown.fireAt (Cooldown.mkTimer (t1 + 3000) userId commandName) <= now
                ∧ _)) by (cbn; auto).
    cbn [orb]. rewrite orb_true_r. reflexivity. }
  split; [|split].
  - subst st2. rewrite expiration_setCooldown, decide_True by auto. reflexivity.
  - exact Hgone.
  - rewrite checkCooldown_expiration, Hgone. reflexivity.
Qed.

Lemma earlier_cleanup_ends_later_cooldown_witness :
  1200 + 3000 <= 4500
  ∧ Cooldown.checkCooldown
      (Cooldown.cooldowns
         (Cooldown.tick 4500
            (Cooldown.setCooldown
               (Cooldown.setCooldown Cooldown.initial 1200
                  "937194748618354708" "points_add")
               2200 "937194748618354708" "points_add")))
      4500 "937194748618354708" "points_add" = 0.
Proof.
  split; [lia|].
  exact (proj2 (proj2 (earlier_cleanup_ends_later_cooldown Cooldown.initial
                         1200 2200 4500 "937194748618354708" "points_add"
                         ltac:(lia)))).
Defined.

(** X20.  What [getPointsHistory] returns first is a newest record of the
    user: when the result is not empty, the closing balance that
    [generateHistoryFile] prints for it is the [after_points] of a record
    of that user in the table whose [created_at] no other record of the
    user exceeds. *)
Theorem closing_balance_is_of_a_newest_record
    (w w' : World) (userId : string) (history : list HistoryRecord) :
  getPointsHistory userId w = (Js.Return history, w') →
  history ≠ [] →
  ∃ record,
    record ∈ points_history (database w)
    ∧ target_user_id record = userId
    ∧ HistoryGenerator.closingBalance history = after_points record
    ∧ ∀ other,
        other ∈ points_history (database w) →
        target_user_id other = userId →
        created_at other <= created_at record.
Proof.
  intros Hrun Hne.
  change (getPointsHistory userId w)
    with (Js.Return (merge_sort newest_first (records_of (database w) userId)),
          with_request (ReqSelectHistory userId) w) in Hrun.
  injection Hrun as <- _.
  pose proof newest_first_total as Htotal.
  pose proof newest_first_trans as Htrans.
  pose proof (StronglySorted_merge_sort newest_first
                (records_of (database w) userId)) as Hsorted.
  pose proof (merge_sort_Permutation newest_first
                (records_of (database w) userId)) as Hperm.
  destruct (merge_sort newest_first (records_of (database w) userId))
    as [|record rest] eqn:Hms; [congruence|].
  assert (Hin : record ∈ records_of (database w) userId).
  { rewrite <- Hperm. left. }
  apply list_elem_of_filter in Hin as [Htarget Hin].
  exists record. split; [exact Hin|]. split; [exact Htarget|].
  split; [reflexivity|].
  intros other Hother Hto.
  assert (Hin' : other ∈ record :: rest).
  { rewrite Hperm. apply list_elem_of_filter. auto. }
  apply elem_of_cons in Hin' as [->|Hrest]; [lia|].
  apply StronglySorted_inv in Hsorted as [_ Hall].
  rewrite Forall_forall in Hall. apply (Hall other Hrest).
Qed.

Lemma closing_balance_is_of_a_newest_record_witness :
  (getPointsHistory "1232261529752178719" (Scenario.world_of Scenario.two_records)).1
  ≠ Js.Return []
  ∧ ∃ record,
      record ∈ points_history Scenario.two_records
      ∧ HistoryGenerator.closingBalance
          (merge_sort newest_first
             (records_of Scenario.two_records "1232261529752178719"))
        = after_points record.
Proof.
  split; [vm_compute; discriminate|].
  destruct (closing_balance_is_of_a_newest_record
              (Scenario.world_of Scenario.two_records)
              (with_request (ReqSelectHistory "1232261529752178719")
                 (Scenario.world_of Scenario.two_records))
              "1232261529752178719"
              (merge_sort newest_first
                 (records_of Scenario.two_records "1232261529752178719")))
    as (record & Hin & _ & Hclosing & _).
  - reflexivity.
  - vm_compute. discriminate.
  - exists record. split; [exact Hin|exact Hclosing].
Defined.

(** X21.  While the cooldown state is a reachable one, the wait that a
    handler announces is between 1 and 3 seconds: a run that passes the
    permission and self-action checks and is stopped by the cooldown
    replies "Slow down!" with that number, and sends nothing else. *)
Theorem slow_down_announces_one_to_three_seconds
    (cfg : Config.t) (rpc : Rpc) (kind : ActionType) (i : Interaction) (w : World) :
  CooldownInv.Reachable (clock w) (cooldown w) →
  Config.canManagePoints cfg (user_id (user i)) (user_id (option_user i)) = true →
  bool_decide (user_id (user i) = user_id (option_user i))
    && negb (Config.allowSelfAdd (Config.points cfg)) = false →
  let remaining :=
    Cooldown.checkCooldown (Cooldown.cooldowns (cooldown w)) (clock w)
      (user_id (user i)) (commandName kind) in
  0 < remaining →
  1 <= remaining <= 3
  ∧ handle kind cfg rpc i w =
    (Js.Return tt, with_output (Reply (slowDown remaining) true) w).
Proof.
  intros Hreach Hperm Hself remaining Hpos. split.
  - subst remaining. rewrite checkCooldown_expiration in *.
    destruct (Cooldown.expiration (Cooldown.cooldowns (cooldown w))
                (user_id (user i)) (commandName kind)) as [e|] eqn:He; [|lia].
    destruct (Z.ltb_spec (clock w) e); [|lia].
    pose proof (Reachable_bounded _ _ Hreach _ _ _ He) as Hb.
    unfold Cooldown.COOLDOWN_DURATION in Hb.
    pose proof (ceil_div_bounds (e - clock w) 1000 ltac:(lia)). lia.
  - assert (Hcd : (0 <? remaining) = true) by (apply Z.ltb_lt, Hpos).
    subst remaining.
    destruct kind; unfold handle, handleAdd, handleRemove, commandName in *;
      cbv zeta; rewrite Hperm, Hself; cbn [negb];
      unfold bind at 1; unfold check_cooldown at 1; cbv beta iota;
      rewrite Hcd; reflexivity.
Qed.

Lemma slow_down_announces_one_to_three_seconds_witness :
  handle ADD Config.config LedgerEngine.modify_points Cast.admin_grants
    {| database := Scenario.ten_points; requests := []; clock := 1500;
       cooldown := Scenario.one_cooldown; LOG_CHANNEL_ID := None;
       channels := λ _, FetchRejects; outputs := [] |}
  = (Js.Return tt,
     with_output
       (Reply (slowDown 3) true)
       {| database := Scenario.ten_points; requests := []; clock := 1500;
          cooldown := Scenario.one_cooldown; LOG_CHANNEL_ID := None;
          channels := λ _, FetchRejects; outputs := [] |}).
Proof.
  refine (proj2 (slow_down_announces_one_to_three_seconds Config.config
                   LedgerEngine.modify_points ADD Cast.admin_grants
                   {| database := Scenario.ten_points; requests := []; clock := 1500;
                      cooldown := Scenario.one_cooldown; LOG_CHANNEL_ID := None;
                      channels := λ _, FetchRejects; outputs := [] |}
                   _ _ _ _)).
  - apply (CooldownInv.Reachable_wait 1000); [|simpl; lia].
    apply CooldownInv.Reachable_setCooldown, CooldownInv.Reachable_initial.
  - reflexivity.
  - reflexivity.
  - vm_compute. reflexivity.
Defined.

End AcrossTheorems.

(* ===================================================================== *)
(** * Worked values *)
(* ===================================================================== *)

Section WorkedValues.

Example toISOString_2023 : Js.toISOString 1700000000123 = "2023-11-14T22:13:20.123Z".
Proof. vm_compute. reflexivity. Qed.

Example toISOString_before_epoch : Js.toISOString (-1) = "1969-12-31T23:59:59.999Z".
Proof. vm_compute. reflexivity. Qed.

Example toISOString_leap_day : Js.toISOString 951782400000 = "2000-02-29T00:00:00.000Z".
Proof. vm_compute. reflexivity. Qed.

Example checkCooldown_rounds_up :
  Cooldown.checkCooldown (Cooldown.cooldowns Scenario.one_cooldown) 3999
    "937194748618354708" "points_add" = 1.
Proof. vm_compute. reflexivity. Qed.

Example checkCooldown_other_command :
  Cooldown.checkCooldown (Cooldown.cooldowns Scenario.one_cooldown) 1500
    "937194748618354708" "points_remove" = 0.
Proof. vm_compute. reflexivity. Qed.

Example cleanup_runs_when_due :
  Cooldown.tick 4000 Scenario.one_cooldown = Cooldown.initial.
Proof. vm_compute. reflexivity. Qed.

(** Two runs that passed the cooldown check before either had set it: the
    clean-up scheduled by the first removes the entry of the second. *)
Example cleanup_of_earlier_set_removes_later_entry :
  let st :=
    Cooldown.setCooldown
      (Cooldown.setCooldown Cooldown.initial 1200 "937194748618354708" "points_add")
      2200 "937194748618354708" "points_add" in
  Cooldown.expiration (Cooldown.cooldowns st) "937194748618354708" "points_add"
  = Some 5200
  ∧ Cooldown.checkCooldown (Cooldown.cooldowns (Cooldown.tick 4200 st)) 4500
      "937194748618354708" "points_add" = 0.
Proof. vm_compute. split; reflexivity. Qed.

Example end_to_end_scenario :
  (Scenario.add_remove_then_read (Scenario.world_of Supabase.empty)).1
  = Js.Return
      (30,
       [ {| Supabase.id := 2; Supabase.target_user_id := "1232261529752178719";
            Supabase.action_by_user_id := "937194748618354708";
            Supabase.action_type := Supabase.REMOVE; Supabase.amount := 20;
            Supabase.before_points := 50; Supabase.after_points := 30;
            Supabase.reason := None; Supabase.created_at := 1000 |};
         {| Supabase.id := 1; Supabase.target_user_id := "1232261529752178719";
            Supabase.action_by_user_id := "937194748618354708";
            Supabase.action_type := Supabase.ADD; Supabase.amount := 50;
            Supabase.before_points := 0; Supabase.after_points := 50;
            Supabase.reason := Some "bonus"; Supabase.created_at := 0 |} ]).
Proof. vm_compute. reflexivity. Qed.

End WorkedValues.
